(** * humanJoin.js: joining a list into a human-friendly string

    A shallow embedding of [humanJoin], [humanJoin.mirrorMap],
    [humanJoin.optionDefaults], [humanJoin.resetOptionDefaults],
    [humanJoin.mirrorCharacter] and [humanJoin.mirrorString] as they are
    written in revision 0.1.1 of the module (the revision that has the
    option defaults), together with the fragment of JavaScript they run on:
    dynamically typed values, [typeof], truthiness, property reads, string
    conversion and string concatenation.  Operations that can throw in
    JavaScript return a [completion]. *)

From Stdlib Require Import ZArith NArith List String Ascii DecimalString Lia.
From stdpp Require Import base option gmap list.
Import ListNotations.

Set Warnings "-register-all".

(** ** The JavaScript fragment *)

Module JS.

(** A string is a sequence of UTF-16 code units. *)
Abbreviation jsstring := (list N).

(** An ASCII literal as a JavaScript string. *)
Definition js (s : string) : jsstring :=
  map N_of_ascii (list_ascii_of_string s).

(** Numbers: the integer-valued ones (printed in decimal, as
    [Number::toString] does below 1e21), [NaN] and the two infinities. *)
Inductive number :=
| Int (z : Z)
| NaN
| Infinity (negative : bool).

(** Values.  Objects are plain data objects (own string-keyed data
    properties, prototype [Object.prototype]); [VArgs] is an [Arguments]
    object; [VSymbol] carries the symbol's description. *)
Inductive value :=
| VUndefined
| VNull
| VBool (b : bool)
| VNum (n : number)
| VStr (s : jsstring)
| VSymbol (description : jsstring)
| VArr (elems : list value)
| VArgs (elems : list value)
| VObj (props : gmap jsstring value).

Inductive jstype :=
| TUndefined | TObject | TBoolean | TNumber | TString | TSymbol.

Inductive exn := TypeError.

(** The outcome of evaluating an expression: a value or a thrown error. *)
Inductive completion (A : Type) :=
| Returns (a : A)
| Throws (e : exn).
Arguments Returns {A} a.
Arguments Throws {A} e.

#[export] Instance completion_ret : MRet completion := @Returns.
#[export] Instance completion_bind : MBind completion :=
  fun A B f c => match c with Returns a => f a | Throws e => Throws e end.

Definition typeof (v : value) : jstype :=
  match v with
  | VUndefined => TUndefined
  | VNull => TObject
  | VBool _ => TBoolean
  | VNum _ => TNumber
  | VStr _ => TString
  | VSymbol _ => TSymbol
  | VArr _ | VArgs _ | VObj _ => TObject
  end.

Definition jstype_eqb (a b : jstype) : bool :=
  match a, b with
  | TUndefined, TUndefined | TObject, TObject | TBoolean, TBoolean
  | TNumber, TNumber | TString, TString | TSymbol, TSymbol => true
  | _, _ => false
  end.

(** Truthiness ([ToBoolean]). *)
Definition ToBoolean (v : value) : bool :=
  match v with
  | VUndefined | VNull => false
  | VBool b => b
  | VNum (Int z) => negb (z =? 0)%Z
  | VNum NaN => false
  | VNum (Infinity _) => true
  | VStr s => negb (length s =? 0)%nat
  | VSymbol _ | VArr _ | VArgs _ | VObj _ => true
  end.

(** [o.k] for one of the option names and [o[k]] for a one-character key:
    reading from [undefined] or [null] throws; a data object yields its own
    property or [undefined] (no name read by the module is inherited from
    [Object.prototype]); every other value has no such property. *)
Definition get (o : value) (k : jsstring) : completion value :=
  match o with
  | VUndefined | VNull => Throws TypeError
  | VObj props => Returns (default VUndefined (props !! k))
  | _ => Returns VUndefined
  end.

(** [o.k = v] on the defaults record. *)
Definition assign (o : value) (k : jsstring) (v : value) : completion value :=
  match o with
  | VUndefined | VNull => Throws TypeError
  | VObj props => Returns (VObj (<[k := v]> props))
  | _ => Returns o
  end.

Definition Number_toString (n : number) : jsstring :=
  match n with
  | Int z => js (NilZero.string_of_int (Z.to_int z))
  | NaN => js "NaN"
  | Infinity false => js "Infinity"
  | Infinity true => js "-Infinity"
  end.

(** [ToString] after [ToPrimitive].  A symbol cannot be converted
    implicitly; an array joins its elements with a comma, [undefined] and
    [null] elements giving the empty string; a data object uses
    [Object.prototype.toString] unless an own [toString] property (which
    cannot be a function here) shadows it, in which case no primitive is
    found. *)
Fixpoint ToString (v : value) : completion jsstring :=
  match v with
  | VUndefined => Returns (js "undefined")
  | VNull => Returns (js "null")
  | VBool true => Returns (js "true")
  | VBool false => Returns (js "false")
  | VNum n => Returns (Number_toString n)
  | VStr s => Returns s
  | VSymbol _ => Throws TypeError
  | VArr elems =>
      (fix join (l : list value) : completion jsstring :=
         match l with
         | [] => Returns []
         | x :: rest =>
             s ← match x with
                 | VUndefined | VNull => Returns []
                 | _ => ToString x
                 end;
             match rest with
             | [] => Returns s
             | _ => r ← join rest; Returns (s ++ js "," ++ r)
             end
         end) elems
  | VArgs _ => Returns (js "[object Arguments]")
  | VObj props =>
      match props !! js "toString" with
      | Some _ => Throws TypeError
      | None => Returns (js "[object Object]")
      end
  end.

(** [String(v)]: as [ToString], but a symbol is described. *)
Definition String_ (v : value) : completion jsstring :=
  match v with
  | VSymbol d => Returns (js "Symbol(" ++ d ++ js ")")
  | _ => ToString v
  end.

(** [s + v] and [v + s] for a string [s]: string concatenation. *)
Definition add_l (s : jsstring) (v : value) : completion jsstring :=
  t ← ToString v; Returns (s ++ t).

Definition add_r (v : value) (s : jsstring) : completion jsstring :=
  t ← ToString v; Returns (t ++ s).

Definition Array_isArray (v : value) : bool :=
  match v with VArr _ => true | _ => false end.

(** [Object.prototype.toString.call(v) === '[object Arguments]']. *)
Definition isArguments (v : value) : bool :=
  match v with VArgs _ => true | _ => false end.

(** The indexed elements of an array or array-like value. *)
Definition elements (v : value) : list value :=
  match v with VArr l | VArgs l => l | _ => [] end.

(** [Array.prototype.join] on an array of strings. *)
Definition Array_join (sep : jsstring) (l : list jsstring) : jsstring :=
  match l with
  | [] => []
  | x :: rest => x ++ concat (map (fun y => sep ++ y) rest)
  end.

(** [f] applied from left to right, stopping at the first throw. *)
Fixpoint mapM {A B} (f : A → completion B) (l : list A) : completion (list B) :=
  match l with
  | [] => Returns []
  | x :: rest => y ← f x; ys ← mapM f rest; Returns (y :: ys)
  end.

(** [l.forEach(c => acc = f(acc, c))]. *)
Fixpoint forEach {S A} (f : S → A → completion S) (l : list A) (acc : S)
  : completion S :=
  match l with
  | [] => Returns acc
  | x :: rest => acc' ← f acc x; forEach f rest acc'
  end.

End JS.
Import JS.

(** ** The module *)

(** [humanJoin.mirrorMap]; the inverted marks are U+00A1 and U+00BF. *)
Definition mirrorMap_props : gmap jsstring value :=
  <[js "!" := VStr [161%N]]>
  (<[js "?" := VStr [191%N]]>
  (<[js "(" := VStr (js ")")]>
  (<[js ")" := VStr (js "(")]>
  (<[js "{" := VStr (js "}")]>
  (<[js "}" := VStr (js "{")]>
  (<[js "[" := VStr (js "]")]>
  (<[js "]" := VStr (js "[")]>
  (<[js "<" := VStr (js ">")]>
  (<[js ">" := VStr (js "<")]> ∅))))))))).

Definition mirrorMap : value := VObj mirrorMap_props.

(** [c.length < 1]: a number has no [length], and [undefined < 1] is
    false. *)
Definition length_lt_1 (c : value) : bool :=
  match c with
  | VStr s => (length s <? 1)%nat
  | _ => false
  end.

Definition mirrorCharacter (c : value) : completion jsstring :=
  (* short-circuit non-strings *)
  if negb (jstype_eqb (typeof c) TString || jstype_eqb (typeof c) TNumber)
  then Returns []
  (* short-circuit empty strings *)
  else if length_lt_1 c then Returns []
  else
    (* convert numbers to strings *)
    c ← add_l [] c;
    (* shorten long strings to single characters *)
    let c := if (1 <? length c)%nat then take 1 c else c in
    (* the mirror mapping if there is one, otherwise the character itself *)
    m ← get mirrorMap c;
    match m with
    | VStr m => Returns m
    | _ => Returns c
    end.

Definition mirrorString (str : value) : completion jsstring :=
  (* short-circuit non-strings *)
  if negb (jstype_eqb (typeof str) TString || jstype_eqb (typeof str) TNumber)
  then Returns []
  else
    (* convert numbers to strings *)
    str ← add_l [] str;
    (* build up the mirror: str.split('').reverse().forEach(...) *)
    forEach (fun ans c => m ← mirrorCharacter (VStr c); Returns (ans ++ m))
            (rev (map (fun u => [u]) str)) [].

(** The resolved configuration of one call. *)
Record config := {
  separator : jsstring;
  conjunction : value;
  quoteWith : value;
  mirrorQuote : bool
}.

Definition is_string_or_number (v : value) : bool :=
  jstype_eqb (typeof v) TString || jstype_eqb (typeof v) TNumber.

Definition is_string_number_or_boolean (v : value) : bool :=
  is_string_or_number v || jstype_eqb (typeof v) TBoolean.

(** [typeof v === 'number' ? '' + v : v]. *)
Definition force_number_to_string (v : value) : completion value :=
  if jstype_eqb (typeof v) TNumber then s ← add_l [] v; Returns (VStr s)
  else Returns v.

(** "make sure we have a sane options object". *)
Definition sane_options (options : value) : value :=
  let options :=
    match options with
    | VStr name => VObj {[ name := VBool true ]}
    | _ => options
    end in
  if negb (jstype_eqb (typeof options) TObject) then VObj ∅ else options.

(** "apply any shortcuts specified": each test overwrites the conjunction
    resolved so far. *)
Definition apply_shortcuts (options conjunction : value) : completion value :=
  o ← get options (js "and");
  let conjunction := if ToBoolean o then VStr (js " and ") else conjunction in
  o ← get options (js "or");
  let conjunction := if ToBoolean o then VStr (js " or ") else conjunction in
  o1 ← get options (js "oxford");
  o2 ← (if ToBoolean o1 then Returns o1 else get options (js "oxfordAnd"));
  let conjunction := if ToBoolean o2 then VStr (js ", and ") else conjunction in
  o ← get options (js "oxfordOr");
  let conjunction := if ToBoolean o then VStr (js ", or ") else conjunction in
  Returns conjunction.

(** "set up configuration" and "apply any shortcuts specified"; [def] is
    [humanJoin.optionDefaults], [options] the sane options object. *)
Definition configure (def options : value) : completion config :=
  d ← get def (js "separator");
  let separator := if is_string_or_number d then d else VStr (js ", ") in
  o ← get options (js "separator");
  let separator := if is_string_or_number o then o else separator in
  separator ← add_l [] separator;
  d ← get def (js "conjunction");
  let conjunction :=
    if is_string_number_or_boolean d then d else VStr (js " & ") in
  o ← get options (js "conjunction");
  let conjunction := if is_string_number_or_boolean o then o else conjunction in
  conjunction ← force_number_to_string conjunction;
  o ← get options (js "noConjunction");
  let conjunction := if ToBoolean o then VBool false else conjunction in
  d ← get def (js "quoteWith");
  let quoteWith := if is_string_number_or_boolean d then d else VBool false in
  o ← get options (js "quoteWith");
  let quoteWith := if is_string_number_or_boolean o then o else quoteWith in
  quoteWith ← force_number_to_string quoteWith;
  d ← get def (js "mirrorQuote");
  let mirrorQuote := match d with VBool b => b | _ => true end in
  o ← get options (js "mirrorQuote");
  let mirrorQuote :=
    if negb (jstype_eqb (typeof o) TUndefined) then ToBoolean o
    else mirrorQuote in
  conjunction ← apply_shortcuts options conjunction;
  Returns {| separator := separator; conjunction := conjunction;
             quoteWith := quoteWith; mirrorQuote := mirrorQuote |}.

(** The body of the loop that fills [stringList]. *)
Definition quote_item (cfg : config) (item : value) : completion jsstring :=
  (* force to string *)
  s ← add_l [] item;
  (* quote if needed *)
  if ToBoolean (quoteWith cfg) then
    if mirrorQuote cfg then
      q ← add_r (quoteWith cfg) s;
      m ← mirrorString (quoteWith cfg);
      Returns (q ++ m)
    else
      q ← add_r (quoteWith cfg) s;
      add_l q (quoteWith cfg)
  else Returns s.

(** [conjunction !== false]. *)
Definition is_not_false (v : value) : bool :=
  match v with VBool false => false | _ => true end.

(** The [while(stringList.length)] loop, [ans] being the string so far. *)
Fixpoint shift_loop (cfg : config) (ans : jsstring) (stringList : list jsstring)
  : completion jsstring :=
  match stringList with
  | [] => Returns ans
  | next :: rest =>
      ans ← (if (length stringList =? 1)%nat && is_not_false (conjunction cfg)
             then add_l ans (conjunction cfg)
             else Returns (ans ++ separator cfg));
      shift_loop cfg (ans ++ next) rest
  end.

(** "generate the human-friendly string".  [stringList] has the length of
    [list], which is not zero here, so the first [shift] finds a string. *)
Definition generate (cfg : config) (stringList : list jsstring)
  : completion jsstring :=
  match stringList with
  | [] => Returns []
  | ans :: stringList => shift_loop cfg ans stringList
  end.

(** [humanJoin(list, options)] with [humanJoin.optionDefaults] being
    [optionDefaults]. *)
Definition humanJoin (optionDefaults list options : value)
  : completion jsstring :=
  (* short-circuit non-arrays *)
  if negb (Array_isArray list) || isArguments list then String_ list
  (* short-circuit empty lists *)
  else if (length (elements list) =? 0)%nat then Returns []
  else
    cfg ← configure optionDefaults (sane_options options);
    stringList ← mapM (quote_item cfg) (elements list);
    generate cfg stringList.

(** The value [humanJoin.optionDefaults] is initialised with. *)
Definition optionDefaults_initial : value := VObj ∅.

(** [humanJoin.resetOptionDefaults()], as a function on the value of
    [humanJoin.optionDefaults]. *)
Definition resetOptionDefaults (optionDefaults : value) : value :=
  VObj (<[js "separator" := VStr (js ", ")]>
       (<[js "conjunction" := VStr (js " & ")]>
       (<[js "quoteWith" := VBool false]>
       (<[js "mirrorQuote" := VBool true]> ∅)))).

(** ** Earlier revisions kept in the repository

    The two 0.0.1 revisions differ from 0.1.1 in a few lines; the parts
    that differ are embedded here so that the differences can be stated. *)

Module Earlier.

(** The configuration part of [humanJoin] in src/humanJoin.js (0.0.1 with
    shortcuts): there are no option defaults, and only a string or a number
    is taken from [options.conjunction] and [options.quoteWith]. *)
Definition configure (options : value) : completion config :=
  let separator := js ", " in
  o ← get options (js "separator");
  separator ← (if is_string_or_number o then add_l [] o else Returns separator);
  let conjunction := VStr (js " & ") in
  o ← get options (js "conjunction");
  conjunction ← (if is_string_or_number o
                 then s ← add_l [] o; Returns (VStr s)
                 else Returns conjunction);
  o ← get options (js "noConjunction");
  let conjunction := if ToBoolean o then VBool false else conjunction in
  let quoteWith := VBool false in
  o ← get options (js "quoteWith");
  quoteWith ← (if is_string_or_number o
               then s ← add_l [] o; Returns (VStr s)
               else Returns quoteWith);
  let mirrorQuote := true in
  o ← get options (js "mirrorQuote");
  let mirrorQuote :=
    if negb (jstype_eqb (typeof o) TUndefined) then ToBoolean o
    else mirrorQuote in
  conjunction ← apply_shortcuts options conjunction;
  Returns {| separator := separator; conjunction := conjunction;
             quoteWith := quoteWith; mirrorQuote := mirrorQuote |}.

(** [humanJoin] of src/humanJoin.js; the other parts are those of 0.1.1. *)
Definition humanJoin (list options : value) : completion jsstring :=
  if negb (Array_isArray list) || isArguments list then String_ list
  else if (length (elements list) =? 0)%nat then Returns []
  else
    cfg ← configure (sane_options options);
    stringList ← mapM (quote_item cfg) (elements list);
    generate cfg stringList.

(** [humanJoin.mirrorMap] of the first revision; the two marks map to
    U+00C1 and U+00C0 there. *)
Definition mirrorMap : value :=
  VObj (<[js "!" := VStr [193%N]]>
       (<[js "?" := VStr [192%N]]>
       (<[js "(" := VStr (js ")")]>
       (<[js ")" := VStr (js "(")]>
       (<[js "{" := VStr (js "}")]>
       (<[js "}" := VStr (js "{")]>
       (<[js "[" := VStr (js "]")]>
       (<[js "]" := VStr (js "[")]>
       (<[js "<" := VStr (js ">")]>
       (<[js ">" := VStr (js "<")]> ∅)))))))))).

(** [humanJoin.mirrorCharacter] of the first revision: strings only. *)
Definition mirrorCharacter (c : value) : completion jsstring :=
  match c with
  | VStr c =>
      if (length c <? 1)%nat then Returns []
      else
        let c := if (1 <? length c)%nat then take 1 c else c in
        m ← get mirrorMap c;
        match m with
        | VStr m => Returns m
        | _ => Returns c
        end
  | _ => Returns []
  end.

End Earlier.

(** ** Notions used in the statements *)

(** What [mirrorMap] holds, code unit by code unit. *)
Definition mirror_unit (u : N) : N :=
  if (u =? 33)%N then 161%N else if (u =? 63)%N then 191%N
  else if (u =? 40)%N then 41%N else if (u =? 41)%N then 40%N
  else if (u =? 123)%N then 125%N else if (u =? 125)%N then 123%N
  else if (u =? 91)%N then 93%N else if (u =? 93)%N then 91%N
  else if (u =? 60)%N then 62%N else if (u =? 62)%N then 60%N
  else u.

Definition mapped_units : list N :=
  [33; 63; 40; 41; 123; 125; 91; 93; 60; 62]%N.

(** [mirrorString(mirrorString(s))]. *)
Definition mirror_twice (s : jsstring) : completion jsstring :=
  t ← mirrorString (VStr s); mirrorString (VStr t).

(** The defaults are at their baseline: never touched, or just reset. *)
Definition is_baseline (def : value) : Prop :=
  def = optionDefaults_initial ∨ ∃ old, def = resetOptionDefaults old.

(** Is the shortcut [name] set to a truthy value in the options object? *)
Definition flag (props : gmap jsstring value) (name : string) : bool :=
  ToBoolean (default VUndefined (props !! js name)).

(** Is the value [undefined] or [null]? *)
Definition nullish (v : value) : bool :=
  match v with VUndefined | VNull => true | _ => false end.

(** Is the value a string or a boolean? *)
Definition string_or_boolean (v : value) : bool :=
  match v with VStr _ | VBool _ => true | _ => false end.

(** The own properties of a data object; no properties for other values. *)
Definition props_of (v : value) : gmap jsstring value :=
  match v with VObj props => props | _ => ∅ end.

(** The property [name] of a data object, [undefined] when it has none. *)
Definition prop (props : gmap jsstring value) (name : string) : value :=
  default VUndefined (props !! js name).

(** The first accepted value among the per-call option, the default and the
    built-in fallback. *)
Definition pick (accept : value → bool) (o d fallback : value) : value :=
  if accept o then o else if accept d then d else fallback.

(** The display string of a string or a number. *)
Definition display (v : value) : jsstring :=
  match v with
  | VStr s => s
  | VNum n => Number_toString n
  | _ => []
  end.

(** A number replaced by its display string. *)
Definition forced (v : value) : value :=
  match v with VNum n => VStr (Number_toString n) | _ => v end.

(** The configuration of a call in closed form, for a defaults object and
    an options object: each field by precedence, the later test first. *)
Definition resolved (dprops oprops : gmap jsstring value) : config :=
  {| separator :=
       display (pick is_string_or_number
                  (prop oprops "separator") (prop dprops "separator")
                  (VStr (js ", ")));
     conjunction :=
       if flag oprops "oxfordOr" then VStr (js ", or ")
       else if flag oprops "oxford" || flag oprops "oxfordAnd"
            then VStr (js ", and ")
       else if flag oprops "or" then VStr (js " or ")
       else if flag oprops "and" then VStr (js " and ")
       else if flag oprops "noConjunction" then VBool false
       else forced (pick is_string_number_or_boolean
                      (prop oprops "conjunction") (prop dprops "conjunction")
                      (VStr (js " & ")));
     quoteWith :=
       forced (pick is_string_number_or_boolean
                 (prop oprops "quoteWith") (prop dprops "quoteWith")
                 (VBool false));
     mirrorQuote :=
       match prop oprops "mirrorQuote" with
       | VUndefined =>
           match prop dprops "mirrorQuote" with VBool b => b | _ => true end
       | o => ToBoolean o
       end |}.

(** * Proofs *)

(** ** Mirroring *)

Example mirrorString_ex1 : mirrorString (VStr (js "<(")) = Returns (js ")>").
Proof. vm_compute. reflexivity. Qed.

Example mirrorString_ex2 : mirrorString (VStr (js "--+")) = Returns (js "+--").
Proof. vm_compute. reflexivity. Qed.

Lemma mirrorMap_lookup_unmapped (u : N) :
  u ∉ mapped_units → mirrorMap_props !! [u] = None.
Proof.
  intros Hu. unfold mirrorMap_props.
  repeat (rewrite lookup_insert_ne;
          [| intros [= <-]; apply Hu; vm_compute; set_solver]).
  apply lookup_empty.
Qed.

(** Case analysis on the code-unit tests of [mirror_unit]. *)
Ltac case_unit u :=
  match goal with
  | |- context [N.eqb u ?k] => destruct (N.eqb_spec u k) as [-> | ?]
  end.

Lemma mirrorCharacter_unit (u : N) :
  mirrorCharacter (VStr [u]) = Returns [mirror_unit u].
Proof.
  unfold mirror_unit.
  repeat (case_unit u; [vm_compute; reflexivity |]).
  unfold mirrorCharacter, mirrorMap, get; cbn -[mirrorMap_props].
  rewrite mirrorMap_lookup_unmapped; [reflexivity |].
  unfold mapped_units. rewrite !elem_of_cons, elem_of_nil. intuition.
Qed.

(** [forEach] with the mirroring callback maps [mirror_unit] over the
    characters, appending to what has been built so far. *)
Lemma forEach_mirror (l : list N) (ans : jsstring) :
  forEach (fun ans c => m ← mirrorCharacter (VStr c); Returns (ans ++ m))
          (map (fun u => [u]) l) ans
  = Returns (ans ++ map mirror_unit l).
Proof.
  revert ans. induction l as [| u l IH]; intros ans; cbn [map forEach].
  - by rewrite app_nil_r.
  - rewrite mirrorCharacter_unit. cbn. rewrite IH, <- app_assoc. reflexivity.
Qed.

Lemma mirrorString_string (s : jsstring) :
  mirrorString (VStr s) = Returns (map mirror_unit (rev s)).
Proof.
  unfold mirrorString. cbn. rewrite <- map_rev. apply forEach_mirror.
Qed.

Lemma mirror_unit_involutive (u : N) :
  u ≠ 33%N → u ≠ 63%N → mirror_unit (mirror_unit u) = u.
Proof.
  intros H1 H2. unfold mirror_unit.
  repeat (case_unit u; [first [reflexivity | congruence] |]).
  repeat (case_unit u; [congruence |]).
  reflexivity.
Qed.

Lemma bind_Returns {A B} (a : A) (f : A → completion B) :
  (Returns a ≫= f) = f a.
Proof. reflexivity. Qed.

Lemma mirror_twice_map (s : jsstring) :
  mirror_twice s = Returns (map (fun u => mirror_unit (mirror_unit u)) s).
Proof.
  unfold mirror_twice. rewrite mirrorString_string, bind_Returns.
  rewrite mirrorString_string, <- map_rev, rev_involutive, map_map.
  reflexivity.
Qed.

(** C7, as stated, fails: every character is either mapped or mirrors to
    itself, the map sends the exclamation mark to its inverted form, and the
    inverted form has no entry that would send it back. *)
Lemma mirror_twice_exclamation_mark :
  ¬ (∀ s : jsstring,
       (∀ u, u ∈ s →
             is_Some (mirrorMap_props !! [u])
             ∨ mirrorCharacter (VStr [u]) = Returns [u]) →
       mirror_twice s = Returns s).
Proof.
  intros H. specialize (H (js "!")).
  assert (Hfalse : mirror_twice (js "!") = Returns (js "!")).
  { apply H. intros u Hu. left.
    apply list_elem_of_singleton in Hu as ->. vm_compute. eauto. }
  vm_compute in Hfalse. discriminate.
Qed.

(** C7 (amended): for every string that contains neither an exclamation
    mark nor a question mark, mirroring twice gives the string back. *)
Theorem mirrorString_round_trip (s : jsstring) :
  (∀ u, u ∈ s → [u] ≠ js "!" ∧ [u] ≠ js "?") →
  mirror_twice s = Returns s.
Proof.
  intros Hs. rewrite mirror_twice_map. f_equal.
  induction s as [| u s IH]; [reflexivity |]. cbn [map]. f_equal.
  - destruct (Hs u) as [H1 H2]; [left |].
    apply mirror_unit_involutive; intros ->; [apply H1 | apply H2]; reflexivity.
  - apply IH. intros v Hv. apply Hs. by right.
Qed.

Lemma mirrorString_round_trip_witness :
  mirror_twice (js "<([-a-])>") = Returns (js "<([-a-])>").
Proof.
  apply mirrorString_round_trip.
  intros u Hu. vm_compute in Hu.
  repeat (apply elem_of_cons in Hu as [-> | Hu]; [split; discriminate |]).
  by apply elem_of_nil in Hu.
Defined.

(** The round trip fails on exactly the strings that contain one of the
    two marks. *)
Lemma mirror_twice_fixed_iff (s : jsstring) :
  mirror_twice s = Returns s ↔ (∀ u, u ∈ s → u ≠ 33%N ∧ u ≠ 63%N).
Proof.
  rewrite mirror_twice_map. split.
  - intros [= H]. induction s as [| v s IH]; intros u Hu.
    + by apply elem_of_nil in Hu.
    + cbn [map] in H. injection H as Hv Hs.
      apply elem_of_cons in Hu as [-> | Hu]; [| by apply IH].
      split; intros ->; vm_compute in Hv; discriminate.
  - intros Hs. f_equal. induction s as [| v s IH]; [reflexivity |].
    cbn [map]. f_equal.
    + destruct (Hs v) as [H1 H2]; [left |]. by apply mirror_unit_involutive.
    + apply IH. intros u Hu. apply Hs. by right.
Qed.

(** C8: [mirrorCharacter] yields the empty string for a value that is
    neither a string nor a number and for the empty string; it looks at the
    first character only (of a number's decimal form, for a number); it
    yields the mapped character when [mirrorMap] has one and the character
    itself otherwise; the four examples evaluate as announced. *)
Theorem mirrorCharacter_spec :
  (∀ c, is_string_or_number c = false → mirrorCharacter c = Returns [])
  ∧ mirrorCharacter (VStr []) = Returns []
  ∧ (∀ u s, mirrorCharacter (VStr (u :: s)) = mirrorCharacter (VStr [u]))
  ∧ (∀ n, mirrorCharacter (VNum n) = mirrorCharacter (VStr (Number_toString n)))
  ∧ (∀ u m, mirrorMap_props !! [u] = Some (VStr m) →
            mirrorCharacter (VStr [u]) = Returns m)
  ∧ (∀ u, mirrorMap_props !! [u] = None →
          mirrorCharacter (VStr [u]) = Returns [u])
  ∧ mirrorCharacter (VStr (js "<")) = Returns (js ">")
  ∧ mirrorCharacter (VStr (js "f")) = Returns (js "f")
  ∧ mirrorCharacter (VStr (js "")) = Returns (js "")
  ∧ mirrorCharacter (VNum (Int 42)) = Returns (js "4").
Proof.
  repeat split; try (vm_compute; reflexivity).
  - intros c Hc. unfold mirrorCharacter.
    unfold is_string_or_number in Hc. by rewrite Hc.
  - intros u s. unfold mirrorCharacter. cbn -[mirrorMap_props].
    by destruct s.
  - intros n. unfold mirrorCharacter. cbn -[mirrorMap_props Number_toString].
    destruct (Number_toString n) as [| u [| v t]]; reflexivity.
  - intros u m Hm. unfold mirrorCharacter. cbn -[mirrorMap_props].
    by rewrite Hm.
  - intros u Hu. unfold mirrorCharacter. cbn -[mirrorMap_props].
    by rewrite Hu.
Qed.

Lemma mirrorCharacter_spec_witness :
  mirrorCharacter (VBool true) = Returns []
  ∧ mirrorCharacter (VStr (js "(")) = Returns (js ")")
  ∧ mirrorCharacter (VStr (js "+")) = Returns (js "+").
Proof.
  destruct mirrorCharacter_spec as (Hother & _ & _ & _ & Hmapped & Hself & _).
  split; [| split].
  - apply Hother. reflexivity.
  - apply (Hmapped 40%N). vm_compute. reflexivity.
  - apply (Hself 43%N). vm_compute. reflexivity.
Defined.

(** ** Joining *)

Lemma add_l_nil (v : value) : add_l [] v = ToString v.
Proof. unfold add_l. by destruct (ToString v). Qed.

Lemma mapM_ext {A B} (f g : A → completion B) (l : list A) :
  (∀ x, f x = g x) → mapM f l = mapM g l.
Proof.
  intros Hfg. induction l as [| x l IH]; [reflexivity |].
  cbn [mapM]. by rewrite Hfg, IH.
Qed.

Lemma mapM_app {A B} (f : A → completion B) (l1 l2 : list A) ys1 ys2 :
  mapM f l1 = Returns ys1 → mapM f l2 = Returns ys2 →
  mapM f (l1 ++ l2) = Returns (ys1 ++ ys2).
Proof.
  revert ys1. induction l1 as [| x l1 IH]; intros ys1 H1 H2; cbn in *.
  - by injection H1 as <-.
  - destruct (f x) as [y |]; [| discriminate]. cbn in *.
    destruct (mapM f l1) as [ys |]; [| discriminate]. cbn in *.
    injection H1 as <-. by rewrite (IH ys eq_refl H2).
Qed.

Lemma mapM_length {A B} (f : A → completion B) (l : list A) ys :
  mapM f l = Returns ys → length ys = length l.
Proof.
  revert ys. induction l as [| x l IH]; intros ys H; cbn in *.
  - by injection H as <-.
  - destruct (f x) as [y |]; [| discriminate]. cbn in *.
    destruct (mapM f l) as [ys' |]; [| discriminate]. cbn in *.
    injection H as <-. cbn. by rewrite (IH ys' eq_refl).
Qed.

(** The loop with a conjunction in force: the separator before every
    remaining string but the last, the conjunction before the last. *)
Lemma shift_loop_conjunction cfg cs (mid : list jsstring) (final ans : jsstring) :
  is_not_false (conjunction cfg) = true →
  ToString (conjunction cfg) = Returns cs →
  shift_loop cfg ans (mid ++ [final])
  = Returns (ans ++ concat (map (fun y => separator cfg ++ y) mid) ++ cs ++ final).
Proof.
  intros Hnf Hcs. revert ans.
  induction mid as [| x mid IH]; intros ans.
  - cbn. rewrite Hnf. unfold add_l. rewrite Hcs. cbn.
    by rewrite <- app_assoc.
  - cbn [app shift_loop].
    replace (length (x :: mid ++ [final]) =? 1)%nat with false.
    2:{ symmetry. apply Nat.eqb_neq. cbn. rewrite length_app. cbn. lia. }
    cbn [andb]. rewrite bind_Returns, IH. cbn [map concat].
    by rewrite <- !app_assoc.
Qed.

(** The loop with the conjunction disabled: the separator everywhere. *)
Lemma shift_loop_no_conjunction cfg (rest : list jsstring) (ans : jsstring) :
  conjunction cfg = VBool false →
  shift_loop cfg ans rest
  = Returns (ans ++ concat (map (fun y => separator cfg ++ y) rest)).
Proof.
  intros Hc. revert ans. induction rest as [| x rest IH]; intros ans.
  - cbn. by rewrite app_nil_r.
  - cbn [shift_loop]. rewrite Hc. cbn [is_not_false].
    rewrite andb_false_r, bind_Returns, IH. cbn [map concat].
    by rewrite <- !app_assoc.
Qed.

Lemma generate_conjunction cfg cs (front : list jsstring) (final : jsstring) :
  front ≠ [] →
  is_not_false (conjunction cfg) = true →
  ToString (conjunction cfg) = Returns cs →
  generate cfg (front ++ [final])
  = Returns (Array_join (separator cfg) front ++ cs ++ final).
Proof.
  intros Hne Hnf Hcs. destruct front as [| first mid]; [done |].
  cbn [app generate Array_join].
  rewrite (shift_loop_conjunction _ cs) by done.
  by rewrite <- !app_assoc.
Qed.

Lemma generate_no_conjunction cfg (strs : list jsstring) :
  conjunction cfg = VBool false →
  generate cfg strs = Returns (Array_join (separator cfg) strs).
Proof.
  intros Hc. destruct strs as [| first rest]; [reflexivity |].
  cbn [generate Array_join]. by apply shift_loop_no_conjunction.
Qed.

(** Without quoting, an item becomes its display string. *)
Lemma quote_item_unquoted cfg (item : value) :
  ToBoolean (quoteWith cfg) = false → quote_item cfg item = ToString item.
Proof.
  intros Hq. unfold quote_item. rewrite add_l_nil, Hq.
  by destruct (ToString item).
Qed.

(** With a non-empty quote string, an item is wrapped. *)
Lemma quote_item_quoted cfg (q : jsstring) (item : value) :
  quoteWith cfg = VStr q → q ≠ [] →
  quote_item cfg item
  = s ← ToString item;
    Returns (q ++ s ++ (if mirrorQuote cfg then map mirror_unit (rev q) else q)).
Proof.
  intros Hq Hne. unfold quote_item. rewrite add_l_nil, Hq.
  destruct (ToString item) as [s |]; [| reflexivity].
  rewrite !bind_Returns. cbn [ToBoolean].
  replace (length q =? 0)%nat with false
    by (symmetry; apply Nat.eqb_neq; by destruct q).
  cbn [negb]. destruct (mirrorQuote cfg).
  - rewrite mirrorString_string. cbn. by rewrite <- app_assoc.
  - cbn. by rewrite <- app_assoc.
Qed.

(** A call on a non-empty array: configure, stringify, generate. *)
Lemma humanJoin_array (def options : value) (x : value) (items : list value) :
  humanJoin def (VArr (x :: items)) options
  = cfg ← configure def (sane_options options);
    stringList ← mapM (quote_item cfg) (x :: items);
    generate cfg stringList.
Proof. reflexivity. Qed.

(** The reset record holds exactly the values [configure] falls back on. *)
Lemma configure_reset (old options : value) :
  configure (resetOptionDefaults old) options
  = configure optionDefaults_initial options.
Proof. vm_compute. reflexivity. Qed.

Lemma configure_baseline (def options : value) :
  is_baseline def →
  configure def options = configure optionDefaults_initial options.
Proof. intros [-> | [old ->]]; [reflexivity | apply configure_reset]. Qed.

Lemma Array_join_snoc (sep : jsstring) (fs : list jsstring) (f : jsstring) :
  fs ≠ [] → Array_join sep (fs ++ [f]) = Array_join sep fs ++ sep ++ f.
Proof.
  intros Hne. destruct fs as [| x fs]; [done |]. cbn [app Array_join].
  rewrite map_app, concat_app. cbn. by rewrite app_nil_r, <- !app_assoc.
Qed.

Lemma mapM_nonempty {A B} (f : A → completion B) (l : list A) ys :
  l ≠ [] → mapM f l = Returns ys → ys ≠ [].
Proof.
  intros Hne H Hys. apply mapM_length in H. subst ys. by destruct l.
Qed.

Lemma mapM_snoc {A B} (f : A → completion B) (l : list A) (x : A) ys y :
  mapM f l = Returns ys → f x = Returns y →
  mapM f (l ++ [x]) = Returns (ys ++ [y]).
Proof.
  intros Hl Hx. apply mapM_app; [done |]. cbn. by rewrite Hx.
Qed.

(** A call that resolves to a conjunction in force. *)
Lemma humanJoin_conjunction def options cfg cs front final fs f :
  configure def (sane_options options) = Returns cfg →
  is_not_false (conjunction cfg) = true →
  ToString (conjunction cfg) = Returns cs →
  front ≠ [] →
  mapM (quote_item cfg) front = Returns fs →
  quote_item cfg final = Returns f →
  humanJoin def (VArr (front ++ [final])) options
  = Returns (Array_join (separator cfg) fs ++ cs ++ f).
Proof.
  intros Hcfg Hnf Hcs Hne Hfs Hf.
  pose proof (mapM_nonempty _ _ _ Hne Hfs) as Hfsne.
  pose proof (mapM_snoc _ _ _ _ _ Hfs Hf) as Hall.
  destruct front as [| x front]; [done |]. cbn [app] in *.
  rewrite humanJoin_array, Hcfg, bind_Returns, Hall, bind_Returns.
  by apply generate_conjunction.
Qed.

(** A call that resolves to the conjunction being disabled. *)
Lemma humanJoin_no_conjunction def options cfg front final fs f :
  configure def (sane_options options) = Returns cfg →
  conjunction cfg = VBool false →
  front ≠ [] →
  mapM (quote_item cfg) front = Returns fs →
  quote_item cfg final = Returns f →
  humanJoin def (VArr (front ++ [final])) options
  = Returns (Array_join (separator cfg) (fs ++ [f])).
Proof.
  intros Hcfg Hc Hne Hfs Hf.
  pose proof (mapM_snoc _ _ _ _ _ Hfs Hf) as Hall.
  destruct front as [| x front]; [done |]. cbn [app] in *.
  rewrite humanJoin_array, Hcfg, bind_Returns, Hall, bind_Returns.
  by apply generate_no_conjunction.
Qed.

Lemma mapM_unquoted cfg (items : list value) :
  ToBoolean (quoteWith cfg) = false →
  mapM (quote_item cfg) items = mapM ToString items.
Proof. intros Hq. apply mapM_ext. intros x. by apply quote_item_unquoted. Qed.

(** A call at baseline defaults, without quoting, with conjunction [c]. *)
Ltac baseline_call c cs fs f :=
  match goal with
  | |- humanJoin ?d (VArr (?front ++ [?final])) ?o = Returns _ =>
      rewrite (humanJoin_conjunction d o
                 {| separator := js ", "; conjunction := c;
                    quoteWith := VBool false; mirrorQuote := true |} cs
                 front final fs f);
      [ reflexivity
      | rewrite configure_baseline by done; vm_compute; reflexivity
      | reflexivity
      | reflexivity
      | done
      | rewrite mapM_unquoted by reflexivity; eassumption
      | rewrite quote_item_unquoted by reflexivity; eassumption ]
  end.

(** A list of two or more items is a non-empty front and a final item. *)
Lemma two_or_more_snoc {A} (l : list A) :
  2 ≤ length l → ∃ front final, l = front ++ [final] ∧ front ≠ [].
Proof.
  intros Hlen. destruct (exists_last (l := l)) as (front & final & ->).
  - intros ->. cbn in Hlen. lia.
  - exists front, final. split; [reflexivity |].
    intros ->. cbn in Hlen. lia.
Qed.

Lemma mapM_snoc_inv {A B} (f : A → completion B) (l : list A) (x : A) ys :
  mapM f (l ++ [x]) = Returns ys →
  ∃ ys' y, ys = ys' ++ [y] ∧ mapM f l = Returns ys' ∧ f x = Returns y.
Proof.
  revert ys. induction l as [| a l IH]; intros ys H; cbn in H.
  - destruct (f x) as [y |]; [| discriminate]. injection H as <-.
    by exists [], y.
  - destruct (f a) as [b |] eqn:Ea; [| discriminate]. cbn in H.
    destruct (mapM f (l ++ [x])) as [zs |] eqn:E; [| discriminate].
    injection H as <-.
    destruct (IH zs eq_refl) as (ys' & y & -> & Hl & Hx).
    exists (b :: ys'), y. cbn. by rewrite Ea, Hl.
Qed.

(** C1: at baseline defaults and without options, a list of two or more
    items gives the display strings of all items but the last joined with
    [", "], then [" & "], then the display string of the last item. *)
Theorem humanJoin_default (def : value) (items : list value)
    (strs : list jsstring) :
  is_baseline def →
  2 ≤ length items →
  mapM ToString items = Returns strs →
  humanJoin def (VArr items) VUndefined
  = Returns (Array_join (js ", ") (removelast strs)
             ++ js " & " ++ List.last strs []).
Proof.
  intros Hd Hlen Hstrs.
  destruct (two_or_more_snoc items Hlen) as (front & final & -> & Hne).
  destruct (mapM_snoc_inv _ _ _ _ Hstrs) as (fs & f & -> & Hfs & Hf).
  rewrite removelast_last, last_last.
  baseline_call (VStr (js " & ")) (js " & ") fs f.
Qed.

Lemma humanJoin_default_witness :
  humanJoin optionDefaults_initial
    (VArr [VStr (js "apples"); VNum (Int 2); VNull; VStr (js "pears")])
    VUndefined
  = Returns (js "apples, 2, null & pears").
Proof.
  apply (humanJoin_default optionDefaults_initial
           [VStr (js "apples"); VNum (Int 2); VNull; VStr (js "pears")]
           [js "apples"; js "2"; js "null"; js "pears"]).
  - left. reflexivity.
  - simpl. lia.
  - vm_compute. reflexivity.
Defined.

Lemma apply_shortcuts_object (props : gmap jsstring value) (c : value) :
  apply_shortcuts (VObj props) c
  = Returns (if flag props "oxfordOr" then VStr (js ", or ")
             else if flag props "oxford" || flag props "oxfordAnd"
                  then VStr (js ", and ")
             else if flag props "or" then VStr (js " or ")
             else if flag props "and" then VStr (js " and ")
             else c).
Proof.
  unfold apply_shortcuts, get, flag. rewrite !bind_Returns.
  destruct (ToBoolean (default VUndefined (props !! js "oxford"))) eqn:Hox;
    rewrite !bind_Returns, ?Hox;
    repeat match goal with
           | |- context [if ToBoolean ?v then _ else _] =>
               destruct (ToBoolean v)
           end; reflexivity.
Qed.

(** The conjunction of a resolved configuration is what the shortcuts
    left of the conjunction resolved from the other fields. *)
Lemma configure_shortcuts_last (def options : value) (cfg : config) :
  configure def options = Returns cfg →
  ∃ c, apply_shortcuts options c = Returns (conjunction cfg).
Proof.
  unfold configure. intros H.
  repeat match type of H with
         | (?m ≫= _) = Returns _ =>
             let E := fresh "E" in
             destruct m eqn:E; [rewrite bind_Returns in H | discriminate H]
         end.
  injection H as <-. cbn [conjunction]. eauto.
Qed.

(** A call at baseline defaults, without quoting, conjunction disabled. *)
Ltac baseline_call_disabled fs f :=
  match goal with
  | |- humanJoin ?d (VArr (?front ++ [?final])) ?o = Returns _ =>
      rewrite (humanJoin_no_conjunction d o
                 {| separator := js ", "; conjunction := VBool false;
                    quoteWith := VBool false; mirrorQuote := true |}
                 front final fs f);
      [ reflexivity
      | rewrite configure_baseline by done; vm_compute; reflexivity
      | reflexivity
      | done
      | rewrite mapM_unquoted by reflexivity; eassumption
      | rewrite quote_item_unquoted by reflexivity; eassumption ]
  end.

(** C3: the shortcut flags overwrite the conjunction resolved from the
    other fields, in the order and, or, oxford/oxfordAnd, oxfordOr, so a
    later flag wins; for a list of two or more items ([front ++ [final]]
    with a non-empty [front]), with [and] and [or] both set the last two
    items are joined with [" or "], with [oxfordOr] and [and] both set with
    [", or "]. *)
Theorem shortcut_precedence :
  (∀ def options cfg,
     configure def options = Returns cfg →
     ∃ c, apply_shortcuts options c = Returns (conjunction cfg))
  ∧ (∀ props c,
       apply_shortcuts (VObj props) c
       = Returns (if flag props "oxfordOr" then VStr (js ", or ")
                  else if flag props "oxford" || flag props "oxfordAnd"
                       then VStr (js ", and ")
                  else if flag props "or" then VStr (js " or ")
                  else if flag props "and" then VStr (js " and ")
                  else c))
  ∧ (∀ def front final fs f,
       is_baseline def → front ≠ [] →
       mapM ToString front = Returns fs → ToString final = Returns f →
       humanJoin def (VArr (front ++ [final]))
         (VObj (<[js "and" := VBool true]> {[js "or" := VBool true]}))
       = Returns (Array_join (js ", ") fs ++ js " or " ++ f)
       ∧ humanJoin def (VArr (front ++ [final]))
           (VObj (<[js "oxfordOr" := VBool true]> {[js "and" := VBool true]}))
         = Returns (Array_join (js ", ") fs ++ js ", or " ++ f)).
Proof.
  split; [exact configure_shortcuts_last |].
  split; [exact apply_shortcuts_object |].
  intros def front final fs f Hd Hne Hfs Hf. split.
  - baseline_call (VStr (js " or ")) (js " or ") fs f.
  - baseline_call (VStr (js ", or ")) (js ", or ") fs f.
Qed.

Lemma shortcut_precedence_witness :
  humanJoin optionDefaults_initial
    (VArr ([VStr (js "a"); VStr (js "b")] ++ [VStr (js "c")]))
    (VObj (<[js "and" := VBool true]> {[js "or" := VBool true]}))
  = Returns (js "a, b or c")
  ∧ humanJoin (resetOptionDefaults VNull)
      (VArr ([VStr (js "a"); VStr (js "b")] ++ [VStr (js "c")]))
      (VObj (<[js "oxfordOr" := VBool true]> {[js "and" := VBool true]}))
    = Returns (js "a, b, or c").
Proof.
  destruct shortcut_precedence as (_ & _ & H).
  split.
  - apply (H optionDefaults_initial [VStr (js "a"); VStr (js "b")]
             (VStr (js "c")) [js "a"; js "b"] (js "c"));
      [left; reflexivity | discriminate | reflexivity | reflexivity].
  - apply (H (resetOptionDefaults VNull) [VStr (js "a"); VStr (js "b")]
             (VStr (js "c")) [js "a"; js "b"] (js "c"));
      [right; by exists VNull | discriminate | reflexivity | reflexivity].
Defined.

(** C4: at baseline defaults, for a list of two or more items
    ([front ++ [final]] with a non-empty [front]), the per-call
    conjunction [false] makes the separator stand between the last
    two items as well, which is not what leaving the field unset gives; a
    string or a number given as conjunction is used in its display form. *)
Theorem conjunction_option (def : value) (front : list value) (final : value)
    (fs : list jsstring) (f : jsstring) :
  is_baseline def →
  front ≠ [] →
  mapM ToString front = Returns fs →
  ToString final = Returns f →
  humanJoin def (VArr (front ++ [final]))
    (VObj {[js "conjunction" := VBool false]})
  = Returns (Array_join (js ", ") (fs ++ [f]))
  ∧ humanJoin def (VArr (front ++ [final])) (VObj ∅)
    = Returns (Array_join (js ", ") fs ++ js " & " ++ f)
  ∧ humanJoin def (VArr (front ++ [final]))
      (VObj {[js "conjunction" := VBool false]})
    ≠ humanJoin def (VArr (front ++ [final])) (VObj ∅)
  ∧ (∀ c : jsstring,
       humanJoin def (VArr (front ++ [final]))
         (VObj {[js "conjunction" := VStr c]})
       = Returns (Array_join (js ", ") fs ++ c ++ f))
  ∧ (∀ n : number,
       humanJoin def (VArr (front ++ [final]))
         (VObj {[js "conjunction" := VNum n]})
       = Returns (Array_join (js ", ") fs ++ Number_toString n ++ f)).
Proof.
  intros Hd Hne Hfs Hf.
  assert (Hoff : humanJoin def (VArr (front ++ [final]))
                   (VObj {[js "conjunction" := VBool false]})
                 = Returns (Array_join (js ", ") (fs ++ [f])))
    by baseline_call_disabled fs f.
  assert (Hunset : humanJoin def (VArr (front ++ [final])) (VObj ∅)
                   = Returns (Array_join (js ", ") fs ++ js " & " ++ f))
    by baseline_call (VStr (js " & ")) (js " & ") fs f.
  repeat split; try assumption.
  - rewrite Hoff, Hunset.
    rewrite Array_join_snoc by (eapply mapM_nonempty; eassumption).
    intros [= H]. apply app_inv_head in H. discriminate H.
  - intros c. baseline_call (VStr c) c fs f.
  - intros n. baseline_call (VStr (Number_toString n)) (Number_toString n) fs f.
Qed.

Lemma conjunction_option_witness :
  humanJoin optionDefaults_initial
    (VArr ([VStr (js "a"); VStr (js "b")] ++ [VStr (js "c")]))
    (VObj {[js "conjunction" := VBool false]})
  = Returns (js "a, b, c")
  ∧ humanJoin optionDefaults_initial
      (VArr ([VStr (js "a"); VStr (js "b")] ++ [VStr (js "c")]))
      (VObj {[js "conjunction" := VNum (Int 7)]})
    = Returns (js "a, b7c").
Proof.
  destruct (conjunction_option optionDefaults_initial
              [VStr (js "a"); VStr (js "b")] (VStr (js "c"))
              [js "a"; js "b"] (js "c"))
    as (Hoff & _ & _ & _ & Hnum);
    [left; reflexivity | discriminate | reflexivity | reflexivity |].
  split; [exact Hoff | exact (Hnum (Int 7))].
Defined.

(** Peel the binds of a call of [configure] that returned. *)
Ltac peel H :=
  repeat match type of H with
         | (get (VObj ?p) ?k ≫= _) = Returns _ =>
             change (get (VObj p) k)
               with (Returns (default VUndefined (p !! k))) in H;
             rewrite bind_Returns in H
         | (apply_shortcuts (VObj ?p) ?c ≫= _) = Returns _ =>
             rewrite (apply_shortcuts_object p c), bind_Returns in H
         | (?m ≫= _) = Returns _ =>
             let E := fresh "E" in
             destruct m eqn:E; [rewrite bind_Returns in H | discriminate H]
         end.

(** Whatever the defaults, a conjunction given in the options object, of
    an accepted type and with no shortcut flag set, is the one resolved,
    a number in its display form. *)
Lemma configure_option_conjunction (def : value) (props : gmap jsstring value)
    (cfg : config) (v : value) :
  props !! js "conjunction" = Some v →
  is_string_number_or_boolean v = true →
  flag props "noConjunction" = false →
  flag props "and" = false → flag props "or" = false →
  flag props "oxford" = false → flag props "oxfordAnd" = false →
  flag props "oxfordOr" = false →
  configure def (VObj props) = Returns cfg →
  force_number_to_string v = Returns (conjunction cfg).
Proof.
  intros Hv Hacc Hnc Hand Hor Hox Hoxa Hoxo H.
  unfold configure in H. peel H.
  injection H as <-. cbn [conjunction].
  rewrite Hand, Hor, Hox, Hoxa, Hoxo. cbn [orb].
  unfold flag in Hnc. rewrite Hnc.
  rewrite Hv in E2. change (default VUndefined (Some v)) with v in E2.
  by rewrite Hacc in E2.
Qed.

Lemma add_l_string_or_number (s : jsstring) (v : value) :
  is_string_or_number v = true → ∃ t, add_l s v = Returns t.
Proof. destruct v; try discriminate; intros _; cbn; eauto. Qed.

Lemma force_number_to_string_total (v : value) :
  ∃ w, force_number_to_string v = Returns w.
Proof. destruct v; cbn; eauto. Qed.

(** On a defaults object and an options object, [configure] returns. *)
Lemma configure_objects_total (dprops oprops : gmap jsstring value) :
  ∃ cfg, configure (VObj dprops) (VObj oprops) = Returns cfg.
Proof.
  unfold configure, apply_shortcuts.
  cbn [get mbind completion_bind].
  match goal with
  | |- context [add_l [] ?x] =>
      assert (Hx : is_string_or_number x = true)
        by (repeat case_match; done);
      destruct (add_l_string_or_number [] x Hx) as [s ->]
  end.
  repeat match goal with
         | |- context [force_number_to_string ?x] =>
             destruct (force_number_to_string_total x) as [? ->]
         end.
  cbn [mbind completion_bind].
  destruct (ToBoolean (default VUndefined (oprops !! js "oxford")));
    cbn [mbind completion_bind]; eauto.
Qed.

(** Whatever else the defaults record holds, a string stored as its
    conjunction is the one a call without options resolves. *)
Lemma configure_default_conjunction (dprops : gmap jsstring value)
    (c : jsstring) :
  ∃ cfg, configure (VObj (<[js "conjunction" := VStr c]> dprops)) (VObj ∅)
         = Returns cfg
         ∧ conjunction cfg = VStr c.
Proof.
  destruct (configure_objects_total (<[js "conjunction" := VStr c]> dprops) ∅)
    as [cfg H].
  exists cfg. split; [exact H |].
  unfold configure in H. peel H. injection H as <-. cbn [conjunction].
  unfold flag. rewrite !lookup_empty. cbn.
  rewrite lookup_empty, lookup_insert_eq in E0. cbn in E0.
  by injection E0 as <-.
Qed.

(** C10: at baseline defaults, for a list of two or more items
    ([front ++ [final]] with a non-empty [front]), the per-call
    conjunction [true] puts the text "true" between the last two items. *)
Theorem conjunction_true (def : value) (front : list value) (final : value)
    (fs : list jsstring) (f : jsstring) :
  is_baseline def →
  front ≠ [] →
  mapM ToString front = Returns fs →
  ToString final = Returns f →
  humanJoin def (VArr (front ++ [final]))
    (VObj {[js "conjunction" := VBool true]})
  = Returns (Array_join (js ", ") fs ++ js "true" ++ f).
Proof.
  intros Hd Hne Hfs Hf.
  baseline_call (VBool true) (js "true") fs f.
Qed.

Lemma conjunction_true_witness :
  humanJoin optionDefaults_initial
    (VArr ([VStr (js "a"); VStr (js "b")] ++ [VStr (js "c")]))
    (VObj {[js "conjunction" := VBool true]})
  = Returns (js "a, btruec").
Proof.
  apply (conjunction_true optionDefaults_initial
           [VStr (js "a"); VStr (js "b")] (VStr (js "c"))
           [js "a"; js "b"] (js "c"));
    [left; reflexivity | discriminate | reflexivity | reflexivity].
Defined.

(** The same whatever the defaults: [true] is accepted, is not the
    sentinel, and is concatenated as text. *)
Lemma true_conjunction_any_defaults def cfg front final fs f :
  configure def (VObj {[js "conjunction" := VBool true]}) = Returns cfg →
  front ≠ [] →
  mapM (quote_item cfg) front = Returns fs →
  quote_item cfg final = Returns f →
  humanJoin def (VArr (front ++ [final]))
    (VObj {[js "conjunction" := VBool true]})
  = Returns (Array_join (separator cfg) fs ++ js "true" ++ f).
Proof.
  intros Hcfg Hne Hfs Hf.
  assert (Hc : force_number_to_string (VBool true)
               = Returns (conjunction cfg)).
  { apply (configure_option_conjunction def
             {[js "conjunction" := VBool true]} cfg (VBool true));
      [vm_compute; reflexivity .. | exact Hcfg]. }
  injection Hc as Hc.
  apply (humanJoin_conjunction def _ cfg (js "true") front final fs f);
    [exact Hcfg | by rewrite <- Hc | by rewrite <- Hc | exact Hne
    | exact Hfs | exact Hf].
Qed.

(** C2, as stated, fails: the two quoted items are the last two of the
    list, so the default conjunction stands between them, not the
    separator. *)
Lemma pair_in_quotes_not_comma_separated :
  humanJoin optionDefaults_initial (VArr [VStr (js "a"); VStr (js "b")])
    (VObj {[js "quoteWith" := VStr (js "<<")]})
  ≠ Returns (js "<<a>>, <<b>>")
  ∧ humanJoin optionDefaults_initial (VArr [VStr (js "a"); VStr (js "b")])
      (VObj (<[js "quoteWith" := VStr (js "<<")]>
             {[js "mirrorQuote" := VBool false]}))
    ≠ Returns (js "<<a<<, <<b<<").
Proof. split; vm_compute; discriminate. Qed.

(** C2 (amended): at baseline defaults the two calls give
    ["<<a>> & <<b>>"] and ["<<a<< & <<b<<"]; in general a non-empty quote
    string wraps the display string of an item between itself and its
    mirror, or itself when mirroring is off. *)
Theorem quoted_pair :
  (∀ def, is_baseline def →
     humanJoin def (VArr [VStr (js "a"); VStr (js "b")])
       (VObj {[js "quoteWith" := VStr (js "<<")]})
     = Returns (js "<<a>> & <<b>>")
     ∧ humanJoin def (VArr [VStr (js "a"); VStr (js "b")])
         (VObj (<[js "quoteWith" := VStr (js "<<")]>
                {[js "mirrorQuote" := VBool false]}))
       = Returns (js "<<a<< & <<b<<"))
  ∧ (∀ cfg q item s,
       quoteWith cfg = VStr q → q ≠ [] → ToString item = Returns s →
       quote_item cfg item
       = if mirrorQuote cfg
         then m ← mirrorString (VStr q); Returns (q ++ s ++ m)
         else Returns (q ++ s ++ q)).
Proof.
  split.
  - intros def [-> | [old ->]]; split; vm_compute; reflexivity.
  - intros cfg q item s Hq Hne Hs.
    rewrite (quote_item_quoted cfg q) by done. rewrite Hs, bind_Returns.
    destruct (mirrorQuote cfg); [| reflexivity].
    by rewrite mirrorString_string.
Qed.

Lemma quoted_pair_witness :
  humanJoin (resetOptionDefaults VUndefined)
    (VArr [VStr (js "a"); VStr (js "b")])
    (VObj {[js "quoteWith" := VStr (js "<<")]})
  = Returns (js "<<a>> & <<b>>")
  ∧ quote_item {| separator := js ", "; conjunction := VBool false;
                  quoteWith := VStr (js "-<"); mirrorQuote := true |}
      (VNum (Int 5))
    = Returns (js "-<5>-").
Proof.
  destruct quoted_pair as [Hpair Hwrap]. split.
  - destruct (Hpair (resetOptionDefaults VUndefined)) as [H _];
      [right; exists VUndefined; reflexivity | exact H].
  - rewrite (Hwrap _ (js "-<") (VNum (Int 5)) (js "5"));
      [vm_compute; reflexivity | reflexivity | discriminate | reflexivity].
Defined.

(** C9: a reset leaves the four baseline values in the record; once the
    default conjunction has been set to [" and "] on a baseline record, a
    call without options joins the last two items with [" and "]; after a
    reset, from whatever the record had become, it joins them with
    [" & "] again. *)
Theorem defaults_mutation_and_reset :
  (∀ old,
     get (resetOptionDefaults old) (js "separator") = Returns (VStr (js ", "))
     ∧ get (resetOptionDefaults old) (js "conjunction")
       = Returns (VStr (js " & "))
     ∧ get (resetOptionDefaults old) (js "quoteWith") = Returns (VBool false)
     ∧ get (resetOptionDefaults old) (js "mirrorQuote") = Returns (VBool true))
  ∧ (∀ def def' front final fs f,
       is_baseline def →
       assign def (js "conjunction") (VStr (js " and ")) = Returns def' →
       front ≠ [] →
       mapM ToString front = Returns fs → ToString final = Returns f →
       humanJoin def' (VArr (front ++ [final])) VUndefined
       = Returns (Array_join (js ", ") fs ++ js " and " ++ f))
  ∧ (∀ old front final fs f,
       front ≠ [] →
       mapM ToString front = Returns fs → ToString final = Returns f →
       humanJoin (resetOptionDefaults old) (VArr (front ++ [final])) VUndefined
       = Returns (Array_join (js ", ") fs ++ js " & " ++ f)).
Proof.
  split; [| split].
  - intros old. repeat split; vm_compute; reflexivity.
  - intros def def' front final fs f Hd Hset Hne Hfs Hf.
    rewrite (humanJoin_conjunction def' VUndefined
               {| separator := js ", "; conjunction := VStr (js " and ");
                  quoteWith := VBool false; mirrorQuote := true |}
               (js " and ") front final fs f);
      [ reflexivity | | reflexivity | reflexivity | done
      | rewrite mapM_unquoted by reflexivity; eassumption
      | rewrite quote_item_unquoted by reflexivity; eassumption ].
    destruct Hd as [-> | [old ->]]; injection Hset as <-;
      vm_compute; reflexivity.
  - intros old front final fs f Hne Hfs Hf.
    assert (Hd : is_baseline (resetOptionDefaults old))
      by (right; by exists old).
    baseline_call (VStr (js " & ")) (js " & ") fs f.
Qed.

Lemma defaults_mutation_and_reset_witness :
  humanJoin (VObj {[js "conjunction" := VStr (js " and ")]})
    (VArr ([VStr (js "a"); VStr (js "b")] ++ [VStr (js "c")])) VUndefined
  = Returns (js "a, b and c")
  ∧ humanJoin
      (resetOptionDefaults (VObj {[js "conjunction" := VStr (js " and ")]}))
      (VArr ([VStr (js "a"); VStr (js "b")] ++ [VStr (js "c")])) VUndefined
    = Returns (js "a, b & c").
Proof.
  destruct defaults_mutation_and_reset as (_ & Hset & Hreset). split.
  - apply (Hset optionDefaults_initial
             (VObj {[js "conjunction" := VStr (js " and ")]})
             [VStr (js "a"); VStr (js "b")] (VStr (js "c"))
             [js "a"; js "b"] (js "c"));
      [left; reflexivity | vm_compute; reflexivity | discriminate
      | reflexivity | reflexivity].
  - apply (Hreset (VObj {[js "conjunction" := VStr (js " and ")]})
             [VStr (js "a"); VStr (js "b")] (VStr (js "c"))
             [js "a"; js "b"] (js "c"));
      [discriminate | reflexivity | reflexivity].
Defined.

(** A mutation of the defaults record is seen by the next call: whatever
    else the record holds, the conjunction stored in it is the one a call
    without options resolves. *)
Lemma defaults_read_on_each_call (dprops : gmap jsstring value) (c : jsstring) :
  ∃ def' cfg,
    assign (VObj dprops) (js "conjunction") (VStr c) = Returns def'
    ∧ configure def' (sane_options VUndefined) = Returns cfg
    ∧ conjunction cfg = VStr c.
Proof.
  destruct (configure_default_conjunction dprops c) as (cfg & Hcfg & Hc).
  exists (VObj (<[js "conjunction" := VStr c]> dprops)), cfg.
  repeat split; done.
Qed.

(** C5 does not hold of the code: [typeof null] is ['object'], so a
    [null] options argument is kept as the options object and the first
    property read from it throws. *)
Theorem humanJoin_null_options :
  humanJoin optionDefaults_initial (VArr [VStr (js "a")]) VNull
  = Throws TypeError.
Proof. vm_compute. reflexivity. Qed.

(** The same for every non-empty list and whatever the defaults are. *)
Lemma null_options_throw_for_any_list (def : value) (items : list value) :
  items ≠ [] → humanJoin def (VArr items) VNull = Throws TypeError.
Proof.
  intros Hne. destruct items as [| x items]; [done |].
  rewrite humanJoin_array. unfold configure.
  change (sane_options VNull) with VNull.
  destruct (get def (js "separator")) as [d | []]; reflexivity.
Qed.

(** An item that is a symbol makes the call throw as well. *)
Lemma humanJoin_symbol_item (d : jsstring) :
  humanJoin optionDefaults_initial (VArr [VSymbol d]) VUndefined
  = Throws TypeError.
Proof. vm_compute. reflexivity. Qed.

(** C6: for a value that is not an array, whatever the options and the
    defaults, the call is the string conversion of the value. *)
Theorem humanJoin_non_array (def list options : value) :
  Array_isArray list = false →
  humanJoin def list options = String_ list.
Proof. intros H. unfold humanJoin. by rewrite H. Qed.

Lemma humanJoin_non_array_witness :
  humanJoin optionDefaults_initial
    (VArgs [VStr (js "a"); VStr (js "b")])
    (VObj {[js "quoteWith" := VStr (js "<<")]})
  = Returns (js "[object Arguments]")
  ∧ humanJoin optionDefaults_initial (VNum (Int 42)) VNull
    = Returns (js "42").
Proof.
  split.
  - rewrite (humanJoin_non_array optionDefaults_initial
               (VArgs [VStr (js "a"); VStr (js "b")])
               (VObj {[js "quoteWith" := VStr (js "<<")]}));
      reflexivity.
  - rewrite (humanJoin_non_array optionDefaults_initial (VNum (Int 42)) VNull);
      reflexivity.
Defined.

(** ** The earlier revisions *)

(** In src/humanJoin.js (0.0.1) a boolean given as conjunction is not
    looked at: [false] leaves the default conjunction in place. *)
Lemma earlier_conjunction_false_ignored :
  Earlier.humanJoin (VArr [VStr (js "a"); VStr (js "b"); VStr (js "c")])
    (VObj {[js "conjunction" := VBool false]})
  = Returns (js "a, b & c").
Proof. vm_compute. reflexivity. Qed.

(** The first revision of [mirrorCharacter] takes strings only. *)
Lemma earlier_mirrorCharacter_number :
  Earlier.mirrorCharacter (VNum (Int 42)) = Returns []
  ∧ Earlier.mirrorCharacter (VStr (js "<")) = Returns (js ">")
  ∧ Earlier.mirrorCharacter (VStr (js "f")) = Returns (js "f")
  ∧ Earlier.mirrorCharacter (VStr (js "")) = Returns (js "").
Proof. repeat split; vm_compute; reflexivity. Qed.

(** * Further properties *)

(** ** When a call throws *)

Lemma exn_unique (e : exn) : e = TypeError.
Proof. by destruct e. Qed.

Lemma get_not_throws (o : value) (k : jsstring) (e : exn) :
  nullish o = false → get o k ≠ Throws e.
Proof. destruct o; discriminate. Qed.

Lemma get_nullish_throws (o : value) (k : jsstring) :
  nullish o = true → get o k = Throws TypeError.
Proof. destruct o; try discriminate; reflexivity. Qed.

Lemma add_l_accepted (s : jsstring) (v : value) (e : exn) :
  is_string_number_or_boolean v = true → add_l s v ≠ Throws e.
Proof. destruct v as [| | [] | | | | | |]; discriminate. Qed.

Lemma force_number_to_string_not_throws (v : value) (e : exn) :
  force_number_to_string v ≠ Throws e.
Proof. destruct v; discriminate. Qed.

(** Refute a hypothesis saying that a step of [configure] threw. *)
Ltac refute_throw E :=
  exfalso;
  repeat match type of E with
         | context [if ?b then _ else _] => destruct b eqn:?
         end;
  first
    [ by eapply get_not_throws in E
    | by eapply force_number_to_string_not_throws in E
    | eapply add_l_accepted in E; [done |];
      unfold is_string_number_or_boolean;
      first [done | by apply orb_true_intro; left]
    | discriminate E ].

(** Peel the binds of a call that is supposed to have thrown. *)
Ltac peel_throw H :=
  repeat match type of H with
         | (?m ≫= _) = Throws _ =>
             let E := fresh "E" in
             destruct m eqn:E;
             [rewrite bind_Returns in H | clear H; refute_throw E]
         end;
  try discriminate H.

Lemma apply_shortcuts_not_throws (options c : value) (e : exn) :
  nullish options = false → apply_shortcuts options c ≠ Throws e.
Proof.
  intros Ho H. unfold apply_shortcuts in H. peel_throw H.
Qed.

Lemma configure_not_throws (def options : value) (e : exn) :
  nullish def = false → nullish options = false →
  configure def options ≠ Throws e.
Proof.
  intros Hd Ho H. unfold configure in H.
  repeat match type of H with
         | (apply_shortcuts ?o ?c ≫= _) = Throws _ =>
             let E := fresh "E" in
             destruct (apply_shortcuts o c) eqn:E;
             [rewrite bind_Returns in H
             | by eapply apply_shortcuts_not_throws in E]
         | (?m ≫= _) = Throws _ =>
             let E := fresh "E" in
             destruct m eqn:E;
             [rewrite bind_Returns in H | clear H; refute_throw E]
         end.
  discriminate H.
Qed.

Lemma configure_returns (def options : value) :
  nullish def = false → nullish options = false →
  ∃ cfg, configure def options = Returns cfg.
Proof.
  intros Hd Ho. destruct (configure def options) as [cfg | e] eqn:E; [eauto |].
  by apply configure_not_throws in E.
Qed.

Lemma configure_nullish (def options : value) :
  nullish def = true ∨ nullish options = true →
  configure def options = Throws TypeError.
Proof.
  intros [Hd | Ho]; unfold configure.
  - rewrite (get_nullish_throws def (js "separator")) by done. reflexivity.
  - destruct (get def (js "separator")) as [d | []]; [| reflexivity].
    rewrite bind_Returns, (get_nullish_throws options (js "separator")) by done. reflexivity.
Qed.

Lemma sane_options_nullish (options : value) :
  nullish (sane_options options) = true ↔ options = VNull.
Proof.
  split.
  - destruct options; try discriminate; done.
  - by intros ->.
Qed.

(** ** What a resolved configuration holds *)

Lemma force_number_to_string_accepted (v w : value) :
  is_string_number_or_boolean v = true →
  force_number_to_string v = Returns w → string_or_boolean w = true.
Proof.
  destruct v; try discriminate; intros _ [= <-]; reflexivity.
Qed.

Lemma apply_shortcuts_result (options c r : value) :
  apply_shortcuts options c = Returns r →
  r = c ∨ r = VStr (js " and ") ∨ r = VStr (js " or ")
  ∨ r = VStr (js ", and ") ∨ r = VStr (js ", or ").
Proof.
  unfold apply_shortcuts. intros H.
  repeat match type of H with
         | (?m ≫= _) = Returns _ =>
             let E := fresh "E" in
             destruct m eqn:E; [rewrite bind_Returns in H | discriminate H]
         end.
  injection H as <-.
  repeat match goal with
         | |- context [if ToBoolean ?v then _ else _] => destruct (ToBoolean v)
         end; auto 6.
Qed.

Lemma configure_holds (def options : value) (cfg : config) :
  configure def options = Returns cfg →
  string_or_boolean (conjunction cfg) = true
  ∧ string_or_boolean (quoteWith cfg) = true.
Proof.
  unfold configure. intros H.
  repeat match type of H with
         | (?m ≫= _) = Returns _ =>
             let E := fresh "E" in
             destruct m eqn:E; [rewrite bind_Returns in H | discriminate H]
         end.
  injection H as <-. cbn [conjunction quoteWith].
  assert (Hacc : ∀ (o d fallback : value),
             is_string_number_or_boolean fallback = true →
             is_string_number_or_boolean
               (if is_string_number_or_boolean o then o
                else if is_string_number_or_boolean d then d else fallback)
             = true).
  { intros o d fb Hfb.
    destruct (is_string_number_or_boolean o) eqn:Eo; [done |].
    by destruct (is_string_number_or_boolean d) eqn:Ed. }
  split.
  - match goal with
    | E : apply_shortcuts _ _ = Returns ?r |- _ =>
        apply apply_shortcuts_result in E;
        destruct E as [-> | [-> | [-> | [-> | ->]]]]; try reflexivity
    end.
    match goal with
    | |- context [if ToBoolean ?v then _ else _] =>
        destruct (ToBoolean v); [reflexivity |]
    end.
    match goal with
    | E : force_number_to_string _ = Returns ?w |- string_or_boolean ?w = true =>
        eapply force_number_to_string_accepted; [| exact E]
    end.
    by apply Hacc.
  - match goal with
    | E : force_number_to_string _ = Returns ?w |- string_or_boolean ?w = true =>
        eapply force_number_to_string_accepted; [| exact E]
    end.
    by apply Hacc.
Qed.

(** ** Stringifying and generating under a resolved configuration *)

Lemma mirrorString_number (n : number) :
  mirrorString (VNum n) = Returns (map mirror_unit (rev (Number_toString n))).
Proof.
  unfold mirrorString. cbn -[Number_toString]. rewrite <- map_rev.
  apply forEach_mirror.
Qed.

Lemma mirrorString_other (v : value) :
  is_string_or_number v = false → mirrorString v = Returns [].
Proof.
  intros H. unfold mirrorString. unfold is_string_or_number in H.
  by rewrite H.
Qed.

Lemma mirrorString_returns (v : value) : ∃ s, mirrorString v = Returns s.
Proof.
  destruct (is_string_or_number v) eqn:E.
  - destruct v; try discriminate E.
    + rewrite mirrorString_number. eauto.
    + rewrite mirrorString_string. eauto.
  - rewrite mirrorString_other by done. eauto.
Qed.

Lemma ToString_string_or_boolean (v : value) :
  string_or_boolean v = true → ∃ s, ToString v = Returns s.
Proof. destruct v as [| | [] | | | | | |]; try discriminate; cbn; eauto. Qed.

Lemma quote_item_returns cfg (x : value) (s : jsstring) :
  string_or_boolean (quoteWith cfg) = true →
  ToString x = Returns s → ∃ t, quote_item cfg x = Returns t.
Proof.
  intros Hq Hx. unfold quote_item. rewrite add_l_nil, Hx, bind_Returns.
  destruct (ToString_string_or_boolean _ Hq) as [q Hqs].
  destruct (mirrorString_returns (quoteWith cfg)) as [m Hm].
  unfold add_r, add_l. rewrite Hqs, Hm.
  destruct (ToBoolean (quoteWith cfg)), (mirrorQuote cfg); cbn; eauto.
Qed.

Lemma quote_item_throws cfg (x : value) (e : exn) :
  ToString x = Throws e → quote_item cfg x = Throws e.
Proof. intros Hx. unfold quote_item. by rewrite add_l_nil, Hx. Qed.

Lemma generate_returns cfg (strs : list jsstring) :
  string_or_boolean (conjunction cfg) = true →
  ∃ s, generate cfg strs = Returns s.
Proof.
  intros Hc. destruct (is_not_false (conjunction cfg)) eqn:Hnf.
  - destruct (ToString_string_or_boolean _ Hc) as [cs Hcs].
    destruct strs as [| first rest]; [cbn; eauto |].
    destruct (exists_last (l := first :: rest)) as (front & final & Heq);
      [done |].
    rewrite Heq. destruct front as [| x front].
    + cbn. eauto.
    + rewrite (generate_conjunction cfg cs) by done. eauto.
  - rewrite generate_no_conjunction; [eauto |].
    by destruct (conjunction cfg) as [| | [] | | | | | |].
Qed.

Lemma mapM_returns {A B} (f : A → completion B) (l : list A) :
  (∀ x, x ∈ l → ∃ y, f x = Returns y) → ∃ ys, mapM f l = Returns ys.
Proof.
  induction l as [| x l IH]; intros H; cbn; [eauto |].
  destruct (H x) as [y ->]; [by left |].
  destruct IH as [ys ->]; [intros z Hz; apply H; by right |].
  cbn. eauto.
Qed.

Lemma mapM_Returns_elem {A B} (f : A → completion B) (l : list A) ys :
  mapM f l = Returns ys → ∀ x, x ∈ l → ∃ y, f x = Returns y.
Proof.
  revert ys. induction l as [| a l IH]; intros ys H x Hx.
  - by apply elem_of_nil in Hx.
  - cbn in H. destruct (f a) as [b |] eqn:Ea; [| discriminate].
    cbn in H. destruct (mapM f l) as [zs |] eqn:El; [| discriminate].
    apply elem_of_cons in Hx as [-> | Hx]; [eauto |].
    by apply (IH zs).
Qed.

Lemma display_or_throw (l : list value) :
  (∀ x, x ∈ l → ∃ s, ToString x = Returns s)
  ∨ (∃ x, x ∈ l ∧ ToString x = Throws TypeError).
Proof.
  induction l as [| a l [IH | (x & Hx & Ht)]].
  - left. intros x Hx. by apply elem_of_nil in Hx.
  - destruct (ToString a) as [s | []] eqn:Ea.
    + left. intros x Hx. apply elem_of_cons in Hx as [-> | Hx]; eauto.
    + right. exists a. split; [by left | done].
  - right. exists x. split; [by right | done].
Qed.

(** X2: a call on an array throws exactly when the array is not empty and
    the defaults are [undefined] or [null], or the options are [null], or
    some item has no display string. *)
Theorem humanJoin_array_throws_iff (def options : value) (items : list value) :
  humanJoin def (VArr items) options = Throws TypeError
  ↔ items ≠ []
    ∧ (def = VUndefined ∨ def = VNull ∨ options = VNull
       ∨ ∃ x, x ∈ items ∧ ToString x = Throws TypeError).
Proof.
  destruct items as [| x0 items]; [split; [discriminate | by intros [? _]] |].
  rewrite humanJoin_array. split.
  - intros H. split; [done |].
    destruct (nullish def) eqn:Hd;
      [destruct def; try discriminate Hd; auto |].
    destruct (nullish (sane_options options)) eqn:Ho;
      [apply sane_options_nullish in Ho; auto |].
    destruct (display_or_throw (x0 :: items)) as [Hall | Hex]; [| auto 6].
    exfalso.
    destruct (configure_returns _ _ Hd Ho) as [cfg Hcfg].
    destruct (configure_holds _ _ _ Hcfg) as [Hc Hq].
    rewrite Hcfg, bind_Returns in H.
    destruct (mapM_returns (quote_item cfg) (x0 :: items)) as [strs Hstrs].
    { intros x Hx. destruct (Hall x Hx) as [s Hs].
      by apply (quote_item_returns cfg x s). }
    rewrite Hstrs, bind_Returns in H.
    destruct (generate_returns cfg strs Hc) as [s Hs]. congruence.
  - intros [_ [-> | [-> | [-> | (x & Hx & Ht)]]]]; try reflexivity.
    + unfold configure.
      destruct (get def (js "separator")) as [d | []]; reflexivity.
    + destruct (configure def (sane_options options)) as [cfg | []] eqn:Hcfg;
        [| reflexivity].
      rewrite bind_Returns.
      destruct (mapM (quote_item cfg) (x0 :: items)) as [strs | []] eqn:Hstrs;
        [| reflexivity].
      destruct (mapM_Returns_elem _ _ _ Hstrs x Hx) as [y Hy].
      rewrite (quote_item_throws cfg x TypeError Ht) in Hy. discriminate.
Qed.

(** X1: a list of one item gives that item as [quote_item] leaves it,
    whatever separator and conjunction are resolved; without quoting that
    is the display string of the item. *)
Theorem humanJoin_single_item (def options : value) (cfg : config) (x : value) :
  configure def (sane_options options) = Returns cfg →
  humanJoin def (VArr [x]) options = quote_item cfg x
  ∧ (ToBoolean (quoteWith cfg) = false →
     humanJoin def (VArr [x]) options = ToString x).
Proof.
  intros Hcfg.
  assert (H : humanJoin def (VArr [x]) options = quote_item cfg x).
  { rewrite humanJoin_array, Hcfg, bind_Returns. cbn [mapM].
    by destruct (quote_item cfg x). }
  split; [exact H |].
  intros Hq. by rewrite H, quote_item_unquoted.
Qed.

(** ** The configuration in closed form *)

Lemma add_l_display (v : value) :
  is_string_or_number v = true → add_l [] v = Returns (display v).
Proof. destruct v; try discriminate; reflexivity. Qed.

Lemma force_number_to_string_forced (v : value) :
  force_number_to_string v = Returns (forced v).
Proof. destruct v; reflexivity. Qed.

Lemma pick_accepted (accept : value → bool) (o d fallback : value) :
  accept fallback = true → accept (pick accept o d fallback) = true.
Proof.
  intros Hf. unfold pick.
  destruct (accept o) eqn:Eo; [done |]. by destruct (accept d) eqn:Ed.
Qed.

Lemma configure_objects_resolved (dprops oprops : gmap jsstring value) :
  configure (VObj dprops) (VObj oprops) = Returns (resolved dprops oprops).
Proof.
  unfold configure. cbn [get].
  rewrite !bind_Returns.
  fold (prop dprops "separator") (prop oprops "separator").
  fold (pick is_string_or_number (prop oprops "separator")
          (prop dprops "separator") (VStr (js ", "))).
  rewrite add_l_display by (by apply pick_accepted).
  rewrite !bind_Returns, force_number_to_string_forced, !bind_Returns.
  rewrite force_number_to_string_forced, !bind_Returns.
  rewrite apply_shortcuts_object, bind_Returns.
  unfold resolved, pick, prop, flag. f_equal. f_equal.
  by destruct (default VUndefined (oprops !! js "mirrorQuote")).
Qed.

(** ** Options one at a time, at baseline defaults *)

Lemma js_inj (a b : string) : js a = js b → a = b.
Proof.
  revert b. induction a as [| x a IH]; intros [| y b] H; try discriminate H.
  - reflexivity.
  - cbn in H. injection H as Hxy Hab.
    apply (f_equal ascii_of_N) in Hxy. rewrite !ascii_N_embedding in Hxy.
    subst y. f_equal. by apply IH.
Qed.

Lemma flag_prop (props : gmap jsstring value) (name : string) :
  flag props name = ToBoolean (prop props name).
Proof. reflexivity. Qed.

Lemma prop_empty (name : string) : prop ∅ name = VUndefined.
Proof. unfold prop. by rewrite lookup_empty. Qed.

Lemma prop_singleton_eq (name : string) (v : value) :
  prop {[js name := v]} name = v.
Proof. unfold prop. by rewrite lookup_singleton_eq. Qed.

Lemma prop_singleton_ne (key : jsstring) (name : string) (v : value) :
  key ≠ js name → prop {[key := v]} name = VUndefined.
Proof. intros Hne. unfold prop. by rewrite lookup_singleton_ne. Qed.

Lemma prop_insert_eq (props : gmap jsstring value) (name : string) (v : value) :
  prop (<[js name := v]> props) name = v.
Proof. unfold prop. by rewrite lookup_insert_eq. Qed.

Lemma prop_insert_ne (props : gmap jsstring value) (key : jsstring)
    (name : string) (v : value) :
  key ≠ js name → prop (<[key := v]> props) name = prop props name.
Proof. intros Hne. unfold prop. by rewrite lookup_insert_ne. Qed.

(** Distinct option names are distinct keys. *)
Ltac names_differ :=
  let H := fresh in intros H; apply js_inj in H; discriminate H.

(** Rewrite the property reads of a closed-form configuration. *)
Ltac read_props :=
  unfold resolved; rewrite ?flag_prop;
  repeat match goal with
         | |- context [prop ∅ ?n] => rewrite (prop_empty n)
         | |- context [prop {[js ?n := ?v]} ?n] =>
             rewrite (prop_singleton_eq n v)
         | |- context [prop (<[js ?n := ?v]> ?p) ?n] =>
             rewrite (prop_insert_eq p n v)
         | |- context [prop {[?k := ?v]} ?n] =>
             rewrite (prop_singleton_ne k n v) by names_differ
         | |- context [prop (<[?k := ?v]> ?p) ?n] =>
             rewrite (prop_insert_ne p k n v) by names_differ
         end.

Lemma configure_baseline_object (def : value) (oprops : gmap jsstring value) :
  is_baseline def →
  configure def (VObj oprops) = Returns (resolved ∅ oprops).
Proof.
  intros Hd. rewrite configure_baseline by done.
  apply configure_objects_resolved.
Qed.

(** A call on an options object at baseline defaults, once the resolved
    configuration is known. *)
Lemma humanJoin_baseline_object def oprops cfg cs front final fs f :
  is_baseline def →
  resolved ∅ oprops = cfg →
  ToBoolean (quoteWith cfg) = false →
  is_not_false (conjunction cfg) = true →
  ToString (conjunction cfg) = Returns cs →
  front ≠ [] →
  mapM ToString front = Returns fs → ToString final = Returns f →
  humanJoin def (VArr (front ++ [final])) (VObj oprops)
  = Returns (Array_join (separator cfg) fs ++ cs ++ f).
Proof.
  intros Hd Hcfg Hq Hnf Hcs Hne Hfs Hf.
  apply (humanJoin_conjunction def (VObj oprops) cfg cs front final fs f);
    try done.
  - change (sane_options (VObj oprops)) with (VObj oprops).
    by rewrite configure_baseline_object, Hcfg.
  - by rewrite mapM_unquoted.
  - by rewrite quote_item_unquoted.
Qed.

Lemma humanJoin_baseline_object_disabled def oprops cfg front final fs f :
  is_baseline def →
  resolved ∅ oprops = cfg →
  ToBoolean (quoteWith cfg) = false →
  conjunction cfg = VBool false →
  front ≠ [] →
  mapM ToString front = Returns fs → ToString final = Returns f →
  humanJoin def (VArr (front ++ [final])) (VObj oprops)
  = Returns (Array_join (separator cfg) (fs ++ [f])).
Proof.
  intros Hd Hcfg Hq Hc Hne Hfs Hf.
  apply (humanJoin_no_conjunction def (VObj oprops) cfg front final fs f);
    try done.
  - change (sane_options (VObj oprops)) with (VObj oprops).
    by rewrite configure_baseline_object, Hcfg.
  - by rewrite mapM_unquoted.
  - by rewrite quote_item_unquoted.
Qed.

(** Calls on an options object at baseline defaults without quoting:
    [tac] shows that the closed-form configuration is [cfg]. *)
Ltac object_call cfg cs fs f tac :=
  match goal with
  | |- humanJoin ?d (VArr (?front ++ [?final])) (VObj ?o) = Returns _ =>
      rewrite (humanJoin_baseline_object d o cfg cs front final fs f);
      [ reflexivity | assumption | read_props; tac | reflexivity
      | reflexivity | reflexivity | assumption | assumption | assumption ]
  end.

Ltac object_call_disabled cfg fs f tac :=
  match goal with
  | |- humanJoin ?d (VArr (?front ++ [?final])) (VObj ?o) = Returns _ =>
      rewrite (humanJoin_baseline_object_disabled d o cfg front final fs f);
      [ reflexivity | assumption | read_props; tac | reflexivity
      | reflexivity | assumption | assumption | assumption ]
  end.

(** X5: at baseline defaults, a string or a number given as separator
    stands, in its display form, between all items but the last two; a
    separator of any other type is ignored. *)
Theorem separator_option (def : value) (front : list value) (final : value)
    (fs : list jsstring) (f : jsstring) (v : value) :
  is_baseline def →
  front ≠ [] →
  mapM ToString front = Returns fs →
  ToString final = Returns f →
  humanJoin def (VArr (front ++ [final])) (VObj {[js "separator" := v]})
  = Returns (Array_join (if is_string_or_number v then display v else js ", ")
               fs ++ js " & " ++ f).
Proof.
  intros Hd Hne Hfs Hf.
  object_call
    {| separator := if is_string_or_number v then display v else js ", ";
       conjunction := VStr (js " & ");
       quoteWith := VBool false; mirrorQuote := true |}
    (js " & ") fs f
    ltac:(unfold pick; cbn; by destruct (is_string_or_number v)).
Qed.

(** X6: at baseline defaults, a truthy [noConjunction] makes the result
    the plain join of the display strings with the separator, also when a
    conjunction is given beside it; a falsy one changes nothing; a shortcut
    flag beside it still sets the conjunction. *)
Theorem noConjunction_option (def : value) (front : list value) (final : value)
    (fs : list jsstring) (f : jsstring) (v : value) (c : jsstring) :
  is_baseline def →
  front ≠ [] →
  mapM ToString front = Returns fs →
  ToString final = Returns f →
  humanJoin def (VArr (front ++ [final])) (VObj {[js "noConjunction" := v]})
  = Returns (if ToBoolean v then Array_join (js ", ") (fs ++ [f])
             else Array_join (js ", ") fs ++ js " & " ++ f)
  ∧ (ToBoolean v = true →
     humanJoin def (VArr (front ++ [final]))
       (VObj (<[js "noConjunction" := v]> {[js "conjunction" := VStr c]}))
     = Returns (Array_join (js ", ") (fs ++ [f]))
     ∧ humanJoin def (VArr (front ++ [final]))
         (VObj (<[js "noConjunction" := v]> {[js "and" := VBool true]}))
       = Returns (Array_join (js ", ") fs ++ js " and " ++ f)).
Proof.
  intros Hd Hne Hfs Hf. split; [| intros Hv; split].
  - destruct (ToBoolean v) eqn:Hv.
    + object_call_disabled
        {| separator := js ", "; conjunction := VBool false;
           quoteWith := VBool false; mirrorQuote := true |}
        fs f ltac:(cbn; by rewrite Hv).
    + object_call
        {| separator := js ", "; conjunction := VStr (js " & ");
           quoteWith := VBool false; mirrorQuote := true |}
        (js " & ") fs f ltac:(cbn; by rewrite Hv).
  - object_call_disabled
      {| separator := js ", "; conjunction := VBool false;
         quoteWith := VBool false; mirrorQuote := true |}
      fs f ltac:(cbn; by rewrite Hv).
  - object_call
      {| separator := js ", "; conjunction := VStr (js " and ");
         quoteWith := VBool false; mirrorQuote := true |}
      (js " and ") fs f ltac:(cbn; reflexivity).
Qed.

(** A string as options, at baseline defaults without quoting. *)
Ltac string_call cfg cs fs f tac :=
  match goal with
  | |- humanJoin ?d ?l (VStr ?name) = Returns _ =>
      change (humanJoin d l (VStr name))
        with (humanJoin d l (VObj {[name := VBool true]}));
      object_call cfg cs fs f tac
  end.

(** X4: at baseline defaults, a string given as options acts as the flag
    of that name set to [true]: the five conjunction shortcuts and
    [noConjunction] by name, and a name that is neither one of these nor
    [conjunction] nor [quoteWith] changes nothing. *)
Theorem string_options (def : value) (front : list value) (final : value)
    (fs : list jsstring) (f : jsstring) :
  is_baseline def →
  front ≠ [] →
  mapM ToString front = Returns fs →
  ToString final = Returns f →
  (∀ name, humanJoin def (VArr (front ++ [final])) (VStr name)
           = humanJoin def (VArr (front ++ [final]))
               (VObj {[name := VBool true]}))
  ∧ humanJoin def (VArr (front ++ [final])) (VStr (js "and"))
    = Returns (Array_join (js ", ") fs ++ js " and " ++ f)
  ∧ humanJoin def (VArr (front ++ [final])) (VStr (js "or"))
    = Returns (Array_join (js ", ") fs ++ js " or " ++ f)
  ∧ humanJoin def (VArr (front ++ [final])) (VStr (js "oxford"))
    = Returns (Array_join (js ", ") fs ++ js ", and " ++ f)
  ∧ humanJoin def (VArr (front ++ [final])) (VStr (js "oxfordAnd"))
    = Returns (Array_join (js ", ") fs ++ js ", and " ++ f)
  ∧ humanJoin def (VArr (front ++ [final])) (VStr (js "oxfordOr"))
    = Returns (Array_join (js ", ") fs ++ js ", or " ++ f)
  ∧ humanJoin def (VArr (front ++ [final])) (VStr (js "noConjunction"))
    = Returns (Array_join (js ", ") (fs ++ [f]))
  ∧ (∀ name,
       name ∉ [js "and"; js "or"; js "oxford"; js "oxfordAnd"; js "oxfordOr";
               js "noConjunction"; js "conjunction"; js "quoteWith"] →
       humanJoin def (VArr (front ++ [final])) (VStr name)
       = Returns (Array_join (js ", ") fs ++ js " & " ++ f)).
Proof.
  intros Hd Hne Hfs Hf.
  split; [reflexivity |].
  split; [string_call
            {| separator := js ", "; conjunction := VStr (js " and ");
               quoteWith := VBool false; mirrorQuote := true |}
            (js " and ") fs f ltac:(reflexivity) |].
  split; [string_call
            {| separator := js ", "; conjunction := VStr (js " or ");
               quoteWith := VBool false; mirrorQuote := true |}
            (js " or ") fs f ltac:(reflexivity) |].
  split; [string_call
            {| separator := js ", "; conjunction := VStr (js ", and ");
               quoteWith := VBool false; mirrorQuote := true |}
            (js ", and ") fs f ltac:(reflexivity) |].
  split; [string_call
            {| separator := js ", "; conjunction := VStr (js ", and ");
               quoteWith := VBool false; mirrorQuote := true |}
            (js ", and ") fs f ltac:(reflexivity) |].
  split; [string_call
            {| separator := js ", "; conjunction := VStr (js ", or ");
               quoteWith := VBool false; mirrorQuote := true |}
            (js ", or ") fs f ltac:(reflexivity) |].
  split.
  - change (humanJoin def (VArr (front ++ [final])) (VStr (js "noConjunction")))
      with (humanJoin def (VArr (front ++ [final]))
              (VObj {[js "noConjunction" := VBool true]})).
    object_call_disabled
      {| separator := js ", "; conjunction := VBool false;
         quoteWith := VBool false; mirrorQuote := true |}
      fs f ltac:(reflexivity).
  - intros name Hname.
    rewrite !not_elem_of_cons in Hname.
    destruct Hname as (H1 & H2 & H3 & H4 & H5 & H6 & H7 & H8 & _).
    change (humanJoin def (VArr (front ++ [final])) (VStr name))
      with (humanJoin def (VArr (front ++ [final]))
              (VObj {[name := VBool true]})).
    rewrite (humanJoin_baseline_object def _
               {| separator := js ", "; conjunction := VStr (js " & ");
                  quoteWith := VBool false; mirrorQuote := true |}
               (js " & ") front final fs f);
      [ reflexivity | assumption | | reflexivity | reflexivity | reflexivity
      | assumption | assumption | assumption ].
    unfold resolved. rewrite !flag_prop.
    rewrite (prop_singleton_ne name "and"), (prop_singleton_ne name "or"),
      (prop_singleton_ne name "oxford"), (prop_singleton_ne name "oxfordAnd"),
      (prop_singleton_ne name "oxfordOr"),
      (prop_singleton_ne name "noConjunction"),
      (prop_singleton_ne name "conjunction"),
      (prop_singleton_ne name "quoteWith") by assumption.
    rewrite !prop_empty. unfold pick. cbn.
    destruct (decide (name = js "separator")) as [Hs | Hs].
    + subst name.
      rewrite prop_singleton_eq, (prop_singleton_ne _ "mirrorQuote")
        by names_differ.
      reflexivity.
    + rewrite (prop_singleton_ne name "separator") by done.
      destruct (decide (name = js "mirrorQuote")) as [Hm | Hm].
      * subst name. rewrite prop_singleton_eq. reflexivity.
      * rewrite prop_singleton_ne by done. reflexivity.
Qed.

(** ** Quoting *)

Lemma mapM_bind_map {A B C} (g : A → completion B) (h : B → C) (l : list A) :
  mapM (fun x => s ← g x; Returns (h s)) l
  = ys ← mapM g l; Returns (map h ys).
Proof.
  induction l as [| x l IH]; [reflexivity |]. cbn [mapM]. rewrite IH.
  destruct (g x) as [y |]; [| reflexivity]. rewrite !bind_Returns.
  by destruct (mapM g l).
Qed.

(** A quote string, empty or not, wraps the display string of an item. *)
Lemma quote_item_string cfg (q : jsstring) (item : value) :
  quoteWith cfg = VStr q →
  quote_item cfg item
  = s ← ToString item;
    Returns (q ++ s ++ (if mirrorQuote cfg then map mirror_unit (rev q) else q)).
Proof.
  intros Hq. destruct q as [| u q].
  - rewrite quote_item_unquoted by (by rewrite Hq).
    destruct (ToString item) as [s |]; [| reflexivity].
    rewrite bind_Returns. cbn. by destruct (mirrorQuote cfg); rewrite app_nil_r.
  - by apply quote_item_quoted.
Qed.

(** The quote [true]: the text "true" in front, and behind as well when
    mirroring is off, the mirror of a boolean being empty. *)
Lemma quote_item_true cfg (item : value) :
  quoteWith cfg = VBool true →
  quote_item cfg item
  = s ← ToString item;
    Returns (js "true" ++ s ++ (if mirrorQuote cfg then [] else js "true")).
Proof.
  intros Hq. unfold quote_item. rewrite add_l_nil, Hq.
  destruct (ToString item) as [s |]; [| reflexivity].
  rewrite bind_Returns. cbn [ToBoolean].
  unfold add_r, add_l. cbn [ToString]. rewrite !bind_Returns.
  destruct (mirrorQuote cfg).
  - rewrite (mirrorString_other (VBool true)) by reflexivity.
    by rewrite bind_Returns, <- app_assoc.
  - by rewrite <- app_assoc.
Qed.

(** A call at baseline defaults whose resolved quote wraps with [wrap]. *)
Lemma humanJoin_baseline_wrapped def oprops cfg cs wrap front final fs f :
  is_baseline def →
  resolved ∅ oprops = cfg →
  (∀ x, quote_item cfg x = s ← ToString x; Returns (wrap s)) →
  is_not_false (conjunction cfg) = true →
  ToString (conjunction cfg) = Returns cs →
  front ≠ [] →
  mapM ToString front = Returns fs → ToString final = Returns f →
  humanJoin def (VArr (front ++ [final])) (VObj oprops)
  = Returns (Array_join (separator cfg) (map wrap fs) ++ cs ++ wrap f).
Proof.
  intros Hd Hcfg Hw Hnf Hcs Hne Hfs Hf.
  apply (humanJoin_conjunction def (VObj oprops) cfg cs front final
           (map wrap fs) (wrap f)); try done.
  - change (sane_options (VObj oprops)) with (VObj oprops).
    by rewrite configure_baseline_object, Hcfg.
  - rewrite (mapM_ext _ (fun x => s ← ToString x; Returns (wrap s))) by done.
    by rewrite mapM_bind_map, Hfs.
  - by rewrite Hw, Hf.
Qed.

Lemma mirrorString_display (v : value) :
  is_string_or_number v = true →
  mirrorString v = Returns (map mirror_unit (rev (display v))).
Proof.
  destruct v; try discriminate; intros _.
  - apply mirrorString_number.
  - apply mirrorString_string.
Qed.

(** X7: at baseline defaults, a string or a number given as [quoteWith]
    puts its display form in front of the display string of every item and
    its mirror behind, or itself behind when [mirrorQuote] is [false]; the
    separator and the conjunction stand between the wrapped items. *)
Theorem quoteWith_option (def : value) (front : list value) (final : value)
    (fs : list jsstring) (f : jsstring) (v : value) (m : jsstring) :
  is_baseline def →
  front ≠ [] →
  mapM ToString front = Returns fs →
  ToString final = Returns f →
  is_string_or_number v = true →
  mirrorString v = Returns m →
  humanJoin def (VArr (front ++ [final])) (VObj {[js "quoteWith" := v]})
  = Returns (Array_join (js ", ") (map (fun s => display v ++ s ++ m) fs)
             ++ js " & " ++ (display v ++ f ++ m))
  ∧ humanJoin def (VArr (front ++ [final]))
      (VObj (<[js "quoteWith" := v]> {[js "mirrorQuote" := VBool false]}))
    = Returns (Array_join (js ", ")
                 (map (fun s => display v ++ s ++ display v) fs)
               ++ js " & " ++ (display v ++ f ++ display v)).
Proof.
  intros Hd Hne Hfs Hf Hv Hm.
  rewrite mirrorString_display in Hm by done. injection Hm as <-.
  assert (Hforced : forced v = VStr (display v))
    by (destruct v; try discriminate Hv; reflexivity).
  assert (Hacc : is_string_number_or_boolean v = true)
    by (unfold is_string_number_or_boolean; by rewrite Hv).
  split.
  - rewrite (humanJoin_baseline_wrapped def _
               {| separator := js ", "; conjunction := VStr (js " & ");
                  quoteWith := VStr (display v); mirrorQuote := true |}
               (js " & ")
               (fun s => display v ++ s ++ map mirror_unit (rev (display v)))
               front final fs f);
      [ reflexivity | assumption | | | reflexivity | reflexivity
      | assumption | assumption | assumption ].
    + read_props. unfold pick. rewrite Hacc, Hforced. reflexivity.
    + intros x. by rewrite (quote_item_string _ (display v)).
  - rewrite (humanJoin_baseline_wrapped def _
               {| separator := js ", "; conjunction := VStr (js " & ");
                  quoteWith := VStr (display v); mirrorQuote := false |}
               (js " & ") (fun s => display v ++ s ++ display v)
               front final fs f);
      [ reflexivity | assumption | | | reflexivity | reflexivity
      | assumption | assumption | assumption ].
    + read_props. unfold pick. rewrite Hacc, Hforced. reflexivity.
    + intros x. by rewrite (quote_item_string _ (display v)).
Qed.

(** X8: at baseline defaults, [quoteWith: true] is taken as a quote: the
    text "true" stands in front of every item and, the mirror of a boolean
    being the empty string, nothing stands behind; with [mirrorQuote]
    [false] the text stands behind as well.  [quoteWith: false] quotes
    nothing. *)
Theorem quoteWith_boolean (def : value) (front : list value) (final : value)
    (fs : list jsstring) (f : jsstring) :
  is_baseline def →
  front ≠ [] →
  mapM ToString front = Returns fs →
  ToString final = Returns f →
  humanJoin def (VArr (front ++ [final])) (VObj {[js "quoteWith" := VBool true]})
  = Returns (Array_join (js ", ") (map (fun s => js "true" ++ s) fs)
             ++ js " & " ++ (js "true" ++ f))
  ∧ humanJoin def (VArr (front ++ [final]))
      (VObj (<[js "quoteWith" := VBool true]>
             {[js "mirrorQuote" := VBool false]}))
    = Returns (Array_join (js ", ")
                 (map (fun s => js "true" ++ s ++ js "true") fs)
               ++ js " & " ++ (js "true" ++ f ++ js "true"))
  ∧ humanJoin def (VArr (front ++ [final])) (VObj {[js "quoteWith" := VBool false]})
    = Returns (Array_join (js ", ") fs ++ js " & " ++ f).
Proof.
  intros Hd Hne Hfs Hf. split; [| split].
  - rewrite (humanJoin_baseline_wrapped def _
               {| separator := js ", "; conjunction := VStr (js " & ");
                  quoteWith := VBool true; mirrorQuote := true |}
               (js " & ") (fun s => js "true" ++ s)
               front final fs f);
      [ reflexivity | assumption | | | reflexivity | reflexivity
      | assumption | assumption | assumption ].
    + read_props. reflexivity.
    + intros x. rewrite quote_item_true by reflexivity.
      destruct (ToString x) as [s |]; [| reflexivity].
      rewrite !bind_Returns. cbn [mirrorQuote]. by rewrite app_nil_r.
  - rewrite (humanJoin_baseline_wrapped def _
               {| separator := js ", "; conjunction := VStr (js " & ");
                  quoteWith := VBool true; mirrorQuote := false |}
               (js " & ") (fun s => js "true" ++ s ++ js "true")
               front final fs f);
      [ reflexivity | assumption | | | reflexivity | reflexivity
      | assumption | assumption | assumption ].
    + read_props. reflexivity.
    + intros x. by rewrite quote_item_true.
  - object_call
      {| separator := js ", "; conjunction := VStr (js " & ");
         quoteWith := VBool false; mirrorQuote := true |}
      (js " & ") fs f ltac:(reflexivity).
Qed.

(** ** The defaults record *)

(** X9: a record just reset is, for every call, as good as the record the
    module starts with. *)
Theorem reset_as_untouched (old list options : value) :
  humanJoin (resetOptionDefaults old) list options
  = humanJoin optionDefaults_initial list options.
Proof. unfold humanJoin. by rewrite configure_reset. Qed.

Lemma bind_Returns_r {A} (m : completion A) : (m ≫= Returns) = m.
Proof. by destruct m. Qed.

(** A call on a defaults object and sane options that are an object, once
    the closed-form configuration and the wrapping of an item are known. *)
Lemma humanJoin_objects_wrapped dprops options oprops cfg cs wrap
    front final fs f :
  sane_options options = VObj oprops →
  resolved dprops oprops = cfg →
  (∀ x, quote_item cfg x = s ← ToString x; Returns (wrap s)) →
  is_not_false (conjunction cfg) = true →
  ToString (conjunction cfg) = Returns cs →
  front ≠ [] →
  mapM ToString front = Returns fs → ToString final = Returns f →
  humanJoin (VObj dprops) (VArr (front ++ [final])) options
  = Returns (Array_join (separator cfg) (map wrap fs) ++ cs ++ wrap f).
Proof.
  intros Ho Hcfg Hw Hnf Hcs Hne Hfs Hf.
  apply (humanJoin_conjunction (VObj dprops) options cfg cs front final
           (map wrap fs) (wrap f)); try done.
  - by rewrite Ho, configure_objects_resolved, Hcfg.
  - rewrite (mapM_ext _ (fun x => s ← ToString x; Returns (wrap s))) by done.
    by rewrite mapM_bind_map, Hfs.
  - by rewrite Hw, Hf.
Qed.

Lemma quote_item_plain cfg :
  ToBoolean (quoteWith cfg) = false →
  ∀ x, quote_item cfg x = s ← ToString x; Returns s.
Proof.
  intros Hq x. rewrite quote_item_unquoted by done.
  symmetry. apply bind_Returns_r.
Qed.

(** The record a baseline record becomes by one assignment. *)
Lemma assign_baseline (def def' : value) (k : jsstring) (v : value) :
  is_baseline def → assign def k v = Returns def' →
  ∃ props, def' = VObj (<[k := v]> props)
           ∧ (props = ∅ ∨ VObj props = resetOptionDefaults VUndefined).
Proof.
  intros [-> | [old ->]] [= <-]; eexists; split; try reflexivity; auto.
Qed.

(** A call without quoting on a defaults object: [tac] shows that the
    closed-form configuration is [cfg]. *)
Ltac defaults_call oprops cfg cs fs f tac :=
  match goal with
  | |- humanJoin (VObj ?d) (VArr (?front ++ [?final])) ?o = Returns _ =>
      rewrite (humanJoin_objects_wrapped d o oprops cfg cs (fun s => s)
                 front final fs f);
      [ by rewrite map_id
      | reflexivity
      | read_props; tac
      | by apply quote_item_plain
      | reflexivity | reflexivity | assumption | assumption | assumption ]
  end.

(** X10: a separator and a conjunction stored in a baseline defaults
    record are used by a call without options; per-call values override
    them; a per-call separator of a type that is not accepted falls back
    on the stored one, not on the built-in one; a shortcut overrides the
    stored conjunction. *)
Theorem defaults_precedence (def def1 def2 : value) (ds dc os oc : jsstring)
    (b : bool) (front : list value) (final : value)
    (fs : list jsstring) (f : jsstring) :
  is_baseline def →
  assign def (js "separator") (VStr ds) = Returns def1 →
  assign def1 (js "conjunction") (VStr dc) = Returns def2 →
  front ≠ [] →
  mapM ToString front = Returns fs →
  ToString final = Returns f →
  humanJoin def2 (VArr (front ++ [final])) VUndefined
  = Returns (Array_join ds fs ++ dc ++ f)
  ∧ humanJoin def2 (VArr (front ++ [final]))
      (VObj (<[js "separator" := VStr os]> {[js "conjunction" := VStr oc]}))
    = Returns (Array_join os fs ++ oc ++ f)
  ∧ humanJoin def2 (VArr (front ++ [final]))
      (VObj {[js "separator" := VBool b]})
    = Returns (Array_join ds fs ++ dc ++ f)
  ∧ humanJoin def2 (VArr (front ++ [final])) (VStr (js "or"))
    = Returns (Array_join ds fs ++ js " or " ++ f).
Proof.
  intros Hd H1 H2 Hne Hfs Hf.
  destruct (assign_baseline _ _ _ _ Hd H1) as (props & -> & Hprops).
  injection H2 as <-.
  assert (Hrest : prop props "quoteWith" = VUndefined
                  ∨ prop props "quoteWith" = VBool false).
  { destruct Hprops as [-> | [= ->]]; [left | right]; by read_props. }
  assert (Hmq : prop props "mirrorQuote" = VUndefined
                ∨ prop props "mirrorQuote" = VBool true).
  { destruct Hprops as [-> | [= ->]]; [left | right]; by read_props. }
  assert (Hq : forced (pick is_string_number_or_boolean VUndefined
                         (prop props "quoteWith") (VBool false))
               = VBool false)
    by (destruct Hrest as [-> | ->]; reflexivity).
  assert (Hm : match prop props "mirrorQuote" with
               | VBool b => b | _ => true end = true)
    by (destruct Hmq as [-> | ->]; reflexivity).
  repeat split.
  - defaults_call (∅ : gmap jsstring value)
      {| separator := ds; conjunction := VStr dc;
         quoteWith := VBool false; mirrorQuote := true |}
      dc fs f ltac:(rewrite Hq, Hm; reflexivity).
  - defaults_call
      (<[js "separator" := VStr os]> {[js "conjunction" := VStr oc]}
        : gmap jsstring value)
      {| separator := os; conjunction := VStr oc;
         quoteWith := VBool false; mirrorQuote := true |}
      oc fs f ltac:(rewrite Hq, Hm; reflexivity).
  - defaults_call ({[js "separator" := VBool b]} : gmap jsstring value)
      {| separator := ds; conjunction := VStr dc;
         quoteWith := VBool false; mirrorQuote := true |}
      dc fs f ltac:(rewrite Hq, Hm; reflexivity).
  - defaults_call ({[js "or" := VBool true]} : gmap jsstring value)
      {| separator := ds; conjunction := VStr (js " or ");
         quoteWith := VBool false; mirrorQuote := true |}
      (js " or ") fs f ltac:(rewrite Hq, Hm; reflexivity).
Qed.

(** X11: a quote string stored in a baseline defaults record wraps the
    items of a call without options; the per-call [quoteWith: false] turns
    the quoting off for that call, and the per-call [mirrorQuote: false]
    puts the stored quote string itself behind each item. *)
Theorem default_quote (def def1 : value) (q m : jsstring)
    (front : list value) (final : value) (fs : list jsstring) (f : jsstring) :
  is_baseline def →
  assign def (js "quoteWith") (VStr q) = Returns def1 →
  mirrorString (VStr q) = Returns m →
  front ≠ [] →
  mapM ToString front = Returns fs →
  ToString final = Returns f →
  humanJoin def1 (VArr (front ++ [final])) VUndefined
  = Returns (Array_join (js ", ") (map (fun s => q ++ s ++ m) fs)
             ++ js " & " ++ (q ++ f ++ m))
  ∧ humanJoin def1 (VArr (front ++ [final]))
      (VObj {[js "quoteWith" := VBool false]})
    = Returns (Array_join (js ", ") fs ++ js " & " ++ f)
  ∧ humanJoin def1 (VArr (front ++ [final]))
      (VObj {[js "mirrorQuote" := VBool false]})
    = Returns (Array_join (js ", ") (map (fun s => q ++ s ++ q) fs)
               ++ js " & " ++ (q ++ f ++ q)).
Proof.
  intros Hd H1 Hm Hne Hfs Hf.
  destruct (assign_baseline _ _ _ _ Hd H1) as (props & -> & Hprops).
  rewrite mirrorString_string in Hm. injection Hm as <-.
  assert (Hsep : display (pick is_string_or_number VUndefined
                            (prop props "separator") (VStr (js ", ")))
                 = js ", ")
    by (destruct Hprops as [-> | [= ->]]; read_props; reflexivity).
  assert (Hconj : forced (pick is_string_number_or_boolean VUndefined
                            (prop props "conjunction") (VStr (js " & ")))
                  = VStr (js " & "))
    by (destruct Hprops as [-> | [= ->]]; read_props; reflexivity).
  assert (Hmq : match prop props "mirrorQuote" with
                | VBool b => b | _ => true end = true)
    by (destruct Hprops as [-> | [= ->]]; read_props; reflexivity).
  split; [| split].
  - rewrite (humanJoin_objects_wrapped _ VUndefined ∅
               {| separator := js ", "; conjunction := VStr (js " & ");
                  quoteWith := VStr q; mirrorQuote := true |}
               (js " & ") (fun s => q ++ s ++ map mirror_unit (rev q))
               front final fs f);
      [ reflexivity | reflexivity | | | reflexivity | reflexivity
      | assumption | assumption | assumption ].
    + read_props. rewrite Hsep, Hconj, Hmq. reflexivity.
    + intros x. by rewrite (quote_item_string _ q).
  - defaults_call ({[js "quoteWith" := VBool false]} : gmap jsstring value)
      {| separator := js ", "; conjunction := VStr (js " & ");
         quoteWith := VBool false; mirrorQuote := true |}
      (js " & ") fs f ltac:(rewrite Hsep, Hconj, Hmq; reflexivity).
  - rewrite (humanJoin_objects_wrapped _ _ {[js "mirrorQuote" := VBool false]}
               {| separator := js ", "; conjunction := VStr (js " & ");
                  quoteWith := VStr q; mirrorQuote := false |}
               (js " & ") (fun s => q ++ s ++ q)
               front final fs f);
      [ reflexivity | reflexivity | | | reflexivity | reflexivity
      | assumption | assumption | assumption ].
    + read_props. rewrite Hsep, Hconj. reflexivity.
    + intros x. by rewrite (quote_item_string _ q).
Qed.

(** ** Mirroring, further *)

Lemma mirrorCharacter_first (u : N) (s : jsstring) :
  mirrorCharacter (VStr (u :: s)) = Returns [mirror_unit u].
Proof.
  rewrite <- mirrorCharacter_unit. unfold mirrorCharacter.
  cbn -[mirrorMap_props]. by destruct s.
Qed.

Lemma mirrorCharacter_of_number (n : number) :
  mirrorCharacter (VNum n) = mirrorCharacter (VStr (Number_toString n)).
Proof.
  unfold mirrorCharacter. cbn -[mirrorMap_props Number_toString].
  destruct (Number_toString n) as [| u [| v t]]; reflexivity.
Qed.

Lemma Number_toString_nonempty (n : number) : Number_toString n ≠ [].
Proof.
  destruct n as [z | | []]; try discriminate.
  unfold Number_toString, NilZero.string_of_int.
  destruct (Z.to_int z) as [d | d]; [| discriminate].
  unfold NilZero.string_of_uint. destruct d; discriminate.
Qed.

(** X14: [mirrorCharacter] never throws; its result is one character for
    a non-empty string and for a number, and empty for everything else. *)
Theorem mirrorCharacter_length (c : value) :
  ∃ r, mirrorCharacter c = Returns r
       ∧ length r = match c with
                    | VStr [] => 0
                    | VStr _ | VNum _ => 1
                    | _ => 0
                    end.
Proof.
  destruct c as [| | b | n | [| u s] | d | l | l | p];
    try (exists []; split; reflexivity).
  - rewrite mirrorCharacter_of_number.
    destruct (Number_toString n) as [| u s] eqn:E;
      [by apply Number_toString_nonempty in E |].
    rewrite mirrorCharacter_first. eauto.
  - rewrite mirrorCharacter_first. eauto.
Qed.

Lemma mirrorString_app_units (s t : jsstring) :
  map mirror_unit (rev (s ++ t))
  = map mirror_unit (rev t) ++ map mirror_unit (rev s).
Proof. by rewrite rev_app_distr, map_app. Qed.

(** X12: [mirrorString] turns a concatenation round: the mirror of
    [s ++ t] is the mirror of [t] followed by the mirror of [s]; and it
    keeps the length. *)
Theorem mirrorString_concat (s t ms mt : jsstring) :
  mirrorString (VStr s) = Returns ms →
  mirrorString (VStr t) = Returns mt →
  mirrorString (VStr (s ++ t)) = Returns (mt ++ ms)
  ∧ length ms = length s.
Proof.
  rewrite !mirrorString_string. intros [= <-] [= <-]. split.
  - by rewrite mirrorString_app_units.
  - by rewrite length_map, length_rev.
Qed.

(** X13: on a string without any of the ten mapped characters
    [mirrorString] is plain reversal. *)
Theorem mirrorString_plain (s : jsstring) :
  (∀ u, u ∈ s → u ∉ mapped_units) →
  mirrorString (VStr s) = Returns (rev s).
Proof.
  intros Hs. rewrite mirrorString_string. f_equal.
  rewrite <- (map_id (rev s)) at 2. apply map_ext_in.
  intros u Hu. apply in_rev, list_elem_of_In, Hs in Hu.
  unfold mapped_units in Hu. rewrite !not_elem_of_cons in Hu.
  destruct Hu as (? & ? & ? & ? & ? & ? & ? & ? & ? & ? & _).
  unfold mirror_unit.
  repeat (case_unit u; [done |]). reflexivity.
Qed.

(** X15: [mirrorString] never throws: a value that is neither a string
    nor a number gives the empty string, and a number is mirrored as its
    display string is. *)
Theorem mirrorString_any_value (v : value) :
  (∃ r, mirrorString v = Returns r)
  ∧ (is_string_or_number v = false → mirrorString v = Returns [])
  ∧ (is_string_or_number v = true →
     mirrorString v = mirrorString (VStr (display v))).
Proof.
  split; [apply mirrorString_returns |].
  split; [apply mirrorString_other |].
  intros Hv. by rewrite mirrorString_display, mirrorString_string.
Qed.

(** ** The revisions compared *)

Lemma earlier_configure_object (oprops : gmap jsstring value) :
  jstype_eqb (typeof (prop oprops "conjunction")) TBoolean = false →
  jstype_eqb (typeof (prop oprops "quoteWith")) TBoolean = false →
  Earlier.configure (VObj oprops) = Returns (resolved ∅ oprops).
Proof.
  intros Hc Hq. unfold Earlier.configure. cbn [get]. rewrite !bind_Returns.
  fold (prop oprops "separator") (prop oprops "conjunction")
    (prop oprops "quoteWith") (prop oprops "noConjunction")
    (prop oprops "mirrorQuote").
  unfold resolved. rewrite !prop_empty. unfold pick.
  destruct (is_string_or_number (prop oprops "separator")) eqn:Es;
    [rewrite add_l_display by done |];
    rewrite bind_Returns;
    (destruct (prop oprops "conjunction") eqn:Ec; try discriminate Hc);
    cbn -[prop flag apply_shortcuts];
    (destruct (prop oprops "quoteWith") eqn:Eq; try discriminate Hq);
    cbn -[prop flag apply_shortcuts];
    rewrite apply_shortcuts_object, bind_Returns;
    fold (flag oprops "noConjunction");
    do 2 f_equal;
    by destruct (prop oprops "mirrorQuote").
Qed.

(** X16: src/humanJoin.js (0.0.1) and revision 0.1.1 with untouched
    defaults give the same outcome for every list and all options, unless
    the options hold a boolean as [conjunction] or as [quoteWith]. *)
Theorem earlier_revision_agrees (list options : value) :
  (∀ name v, name ∈ ["conjunction"; "quoteWith"]%string →
             get (sane_options options) (js name) = Returns v →
             jstype_eqb (typeof v) TBoolean = false) →
  Earlier.humanJoin list options = humanJoin optionDefaults_initial list options.
Proof.
  intros H. unfold Earlier.humanJoin, humanJoin.
  assert (Hcfg : Earlier.configure (sane_options options)
                 = configure optionDefaults_initial (sane_options options));
    [| by rewrite Hcfg].
  assert (Hobj : ∀ oprops, sane_options options = VObj oprops →
                 Earlier.configure (VObj oprops)
                 = configure optionDefaults_initial (VObj oprops)).
  { intros oprops Ho. rewrite Ho in H.
    unfold optionDefaults_initial. rewrite configure_objects_resolved.
    apply earlier_configure_object.
    - apply (H "conjunction"%string); [set_solver | reflexivity].
    - apply (H "quoteWith"%string); [set_solver | reflexivity]. }
  destruct options as [| | b | n | s | d | l | l | p].
  - by apply (Hobj ∅).
  - vm_compute. reflexivity.
  - by apply (Hobj ∅).
  - by apply (Hobj ∅).
  - by apply (Hobj {[s := VBool true]}).
  - by apply (Hobj ∅).
  - vm_compute. reflexivity.
  - vm_compute. reflexivity.
  - by apply (Hobj p).
Qed.

(** ** The shape of the result *)

(** X3: whatever the defaults and the options, the conjunction and the
    quote of a configuration that was resolved are a string or a boolean: a
    number has become its display string, any other value was not taken. *)
Theorem configure_string_or_boolean (def options : value) (cfg : config) :
  configure def (sane_options options) = Returns cfg →
  string_or_boolean (conjunction cfg) = true
  ∧ string_or_boolean (quoteWith cfg) = true.
Proof. apply configure_holds. Qed.

(** X17: for any defaults and options that resolve to a configuration,
    a list of two or more items whose items can be stringified gives the
    stringified items in their order, the separator between them, and
    between the last two the text of the conjunction, or the separator
    when the conjunction is [false]. *)
Theorem humanJoin_shape (def options : value) (cfg : config)
    (front : list value) (final : value) (qs : list jsstring) (q : jsstring) :
  configure def (sane_options options) = Returns cfg →
  front ≠ [] →
  mapM (quote_item cfg) front = Returns qs →
  quote_item cfg final = Returns q →
  humanJoin def (VArr (front ++ [final])) options
  = Returns (match conjunction cfg with
             | VBool false => Array_join (separator cfg) (qs ++ [q])
             | VBool true => Array_join (separator cfg) qs ++ js "true" ++ q
             | c => Array_join (separator cfg) qs ++ display c ++ q
             end).
Proof.
  intros Hcfg Hne Hqs Hq.
  destruct (configure_holds _ _ _ Hcfg) as [Hc _].
  destruct (conjunction cfg) as [| | [] | | c | | | |] eqn:Ec;
    try discriminate Hc.
  - apply (humanJoin_conjunction def options cfg (js "true")); try done;
      by rewrite Ec.
  - by apply (humanJoin_no_conjunction def options cfg).
  - apply (humanJoin_conjunction def options cfg c); try done; by rewrite Ec.
Qed.

Lemma earlier_mirrorCharacter_first (u : N) (t : jsstring) :
  Earlier.mirrorCharacter (VStr (u :: t)) = Earlier.mirrorCharacter (VStr [u]).
Proof.
  unfold Earlier.mirrorCharacter. cbn -[Earlier.mirrorMap]. by destruct t.
Qed.

Lemma earlier_mirrorCharacter_unit (u : N) :
  u ≠ 33%N → u ≠ 63%N →
  Earlier.mirrorCharacter (VStr [u]) = Returns [mirror_unit u].
Proof.
  intros H1 H2. unfold mirror_unit.
  repeat (case_unit u; [first [done | vm_compute; reflexivity] |]).
  unfold Earlier.mirrorCharacter, Earlier.mirrorMap, get. cbn -[lookup insert].
  repeat (rewrite lookup_insert_ne; [| intros [= <-]; done]).
  by rewrite lookup_empty.
Qed.

(** X18: the first revision of [mirrorCharacter] and that of 0.1.1 agree
    on every string that does not begin with an exclamation mark or a
    question mark; on these two the first revision yields U+00C1 and
    U+00C0 where 0.1.1 yields the inverted marks. *)
Theorem earlier_mirrorCharacter_agrees :
  (∀ s : jsstring,
     (∀ u, head s = Some u → [u] ≠ js "!" ∧ [u] ≠ js "?") →
     Earlier.mirrorCharacter (VStr s) = mirrorCharacter (VStr s))
  ∧ Earlier.mirrorCharacter (VStr (js "!")) = Returns [193%N]
  ∧ mirrorCharacter (VStr (js "!")) = Returns [161%N]
  ∧ Earlier.mirrorCharacter (VStr (js "?")) = Returns [192%N]
  ∧ mirrorCharacter (VStr (js "?")) = Returns [191%N].
Proof.
  split; [| repeat split; vm_compute; reflexivity].
  intros s Hs. destruct s as [| u t]; [reflexivity |].
  destruct (Hs u eq_refl) as [H1 H2].
  rewrite earlier_mirrorCharacter_first, mirrorCharacter_first.
  apply earlier_mirrorCharacter_unit; intros ->; [apply H1 | apply H2];
    reflexivity.
Qed.

(** ** Instances *)

Lemma humanJoin_single_item_witness :
  humanJoin optionDefaults_initial (VArr [VNum (Int 7)]) (VStr (js "oxford"))
  = Returns (js "7").
Proof.
  destruct (humanJoin_single_item optionDefaults_initial (VStr (js "oxford"))
              {| separator := js ", "; conjunction := VStr (js ", and ");
                 quoteWith := VBool false; mirrorQuote := true |}
              (VNum (Int 7))) as [_ H]; [vm_compute; reflexivity |].
  rewrite H by reflexivity. reflexivity.
Defined.

Lemma configure_string_or_boolean_witness :
  string_or_boolean (VStr (js "0")) = true
  ∧ string_or_boolean (VStr (js "7")) = true.
Proof.
  apply (configure_string_or_boolean optionDefaults_initial
           (VObj (<[js "conjunction" := VNum (Int 0)]>
                  {[js "quoteWith" := VNum (Int 7)]}))
           {| separator := js ", "; conjunction := VStr (js "0");
              quoteWith := VStr (js "7"); mirrorQuote := true |}).
  vm_compute. reflexivity.
Defined.

Lemma string_options_witness :
  humanJoin optionDefaults_initial
    (VArr ([VStr (js "a"); VStr (js "b")] ++ [VStr (js "c")]))
    (VStr (js "oxford"))
  = Returns (js "a, b, and c")
  ∧ humanJoin optionDefaults_initial
      (VArr ([VStr (js "a"); VStr (js "b")] ++ [VStr (js "c")]))
      (VStr (js "verbose"))
    = Returns (js "a, b & c").
Proof.
  destruct (string_options optionDefaults_initial
              [VStr (js "a"); VStr (js "b")] (VStr (js "c"))
              [js "a"; js "b"] (js "c"))
    as (_ & _ & _ & Hox & _ & _ & _ & Hother);
    [left; reflexivity | discriminate | reflexivity | reflexivity |].
  split; [exact Hox |].
  apply Hother. rewrite !not_elem_of_cons.
  repeat split; try names_differ. apply not_elem_of_nil.
Defined.

Lemma separator_option_witness :
  humanJoin optionDefaults_initial
    (VArr ([VStr (js "a"); VStr (js "b")] ++ [VStr (js "c")]))
    (VObj {[js "separator" := VNum (Int 0)]})
  = Returns (js "a0b & c").
Proof.
  apply (separator_option optionDefaults_initial
           [VStr (js "a"); VStr (js "b")] (VStr (js "c"))
           [js "a"; js "b"] (js "c") (VNum (Int 0)));
    [left; reflexivity | discriminate | reflexivity | reflexivity].
Defined.

Lemma noConjunction_option_witness :
  humanJoin optionDefaults_initial
    (VArr ([VStr (js "a"); VStr (js "b")] ++ [VStr (js "c")]))
    (VObj {[js "noConjunction" := VBool true]})
  = Returns (js "a, b, c")
  ∧ humanJoin optionDefaults_initial
      (VArr ([VStr (js "a"); VStr (js "b")] ++ [VStr (js "c")]))
      (VObj (<[js "noConjunction" := VBool true]>
             {[js "and" := VBool true]}))
    = Returns (js "a, b and c").
Proof.
  destruct (noConjunction_option optionDefaults_initial
              [VStr (js "a"); VStr (js "b")] (VStr (js "c"))
              [js "a"; js "b"] (js "c") (VBool true) (js " + "))
    as [H1 H2];
    [left; reflexivity | discriminate | reflexivity | reflexivity |].
  split; [exact H1 |]. destruct H2 as [_ H2]; [reflexivity | exact H2].
Defined.

Lemma quoteWith_option_witness :
  humanJoin optionDefaults_initial
    (VArr ([VStr (js "a"); VStr (js "b")] ++ [VStr (js "c")]))
    (VObj {[js "quoteWith" := VStr (js "<(")]})
  = Returns (js "<(a)>, <(b)> & <(c)>").
Proof.
  destruct (quoteWith_option optionDefaults_initial
              [VStr (js "a"); VStr (js "b")] (VStr (js "c"))
              [js "a"; js "b"] (js "c") (VStr (js "<(")) (js ")>"))
    as [H _];
    [ left; reflexivity | discriminate | reflexivity | reflexivity
    | reflexivity | vm_compute; reflexivity | exact H ].
Defined.

Lemma quoteWith_boolean_witness :
  humanJoin optionDefaults_initial
    (VArr ([VStr (js "a"); VStr (js "b")] ++ [VStr (js "c")]))
    (VObj {[js "quoteWith" := VBool true]})
  = Returns (js "truea, trueb & truec").
Proof.
  destruct (quoteWith_boolean optionDefaults_initial
              [VStr (js "a"); VStr (js "b")] (VStr (js "c"))
              [js "a"; js "b"] (js "c"))
    as [H _];
    [left; reflexivity | discriminate | reflexivity | reflexivity | exact H].
Defined.

Lemma defaults_precedence_witness :
  humanJoin
    (VObj (<[js "conjunction" := VStr (js " and ")]>
           (<[js "separator" := VStr (js "; ")]> ∅)))
    (VArr ([VStr (js "a"); VStr (js "b")] ++ [VStr (js "c")])) VUndefined
  = Returns (js "a; b and c")
  ∧ humanJoin
      (VObj (<[js "conjunction" := VStr (js " and ")]>
             (<[js "separator" := VStr (js "; ")]> ∅)))
      (VArr ([VStr (js "a"); VStr (js "b")] ++ [VStr (js "c")]))
      (VObj {[js "separator" := VBool true]})
    = Returns (js "a; b and c").
Proof.
  destruct (defaults_precedence optionDefaults_initial
              (VObj (<[js "separator" := VStr (js "; ")]> ∅))
              (VObj (<[js "conjunction" := VStr (js " and ")]>
                     (<[js "separator" := VStr (js "; ")]> ∅)))
              (js "; ") (js " and ") (js " / ") (js " plus ") true
              [VStr (js "a"); VStr (js "b")] (VStr (js "c"))
              [js "a"; js "b"] (js "c"))
    as (H1 & _ & H3 & _);
    [ left; reflexivity | reflexivity | reflexivity | discriminate
    | reflexivity | reflexivity | ].
  split; [exact H1 | exact H3].
Defined.

Lemma default_quote_witness :
  humanJoin (VObj (<[js "quoteWith" := VStr (js "<")]> ∅))
    (VArr ([VStr (js "a"); VStr (js "b")] ++ [VStr (js "c")])) VUndefined
  = Returns (js "<a>, <b> & <c>")
  ∧ humanJoin (VObj (<[js "quoteWith" := VStr (js "<")]> ∅))
      (VArr ([VStr (js "a"); VStr (js "b")] ++ [VStr (js "c")]))
      (VObj {[js "quoteWith" := VBool false]})
    = Returns (js "a, b & c").
Proof.
  destruct (default_quote optionDefaults_initial
              (VObj (<[js "quoteWith" := VStr (js "<")]> ∅))
              (js "<") (js ">")
              [VStr (js "a"); VStr (js "b")] (VStr (js "c"))
              [js "a"; js "b"] (js "c"))
    as (H1 & H2 & _);
    [ left; reflexivity | reflexivity | vm_compute; reflexivity | discriminate
    | reflexivity | reflexivity | ].
  split; [exact H1 | exact H2].
Defined.

Lemma mirrorString_concat_witness :
  mirrorString (VStr (js "<(" ++ js "-[")) = Returns (js "]-" ++ js ")>").
Proof.
  destruct (mirrorString_concat (js "<(") (js "-[") (js ")>") (js "]-"))
    as [H _]; [vm_compute; reflexivity | vm_compute; reflexivity | exact H].
Defined.

Lemma mirrorString_plain_witness :
  mirrorString (VStr (js "-+")) = Returns (js "+-").
Proof.
  apply (mirrorString_plain (js "-+")).
  intros u Hu. vm_compute in Hu.
  unfold mapped_units. rewrite !not_elem_of_cons.
  repeat (apply elem_of_cons in Hu as [-> | Hu];
          [repeat split; try discriminate; apply not_elem_of_nil |]).
  by apply elem_of_nil in Hu.
Defined.

Lemma mirrorString_any_value_witness :
  mirrorString (VBool false) = Returns []
  ∧ mirrorString (VNum (Int 42)) = mirrorString (VStr (js "42")).
Proof.
  split.
  - destruct (mirrorString_any_value (VBool false)) as (_ & H & _).
    apply H. reflexivity.
  - destruct (mirrorString_any_value (VNum (Int 42))) as (_ & _ & H).
    apply H. reflexivity.
Defined.

Lemma earlier_revision_agrees_witness :
  Earlier.humanJoin (VArr [VStr (js "a"); VStr (js "b"); VStr (js "c")])
    (VObj {[js "separator" := VStr (js "; ")]})
  = humanJoin optionDefaults_initial
      (VArr [VStr (js "a"); VStr (js "b"); VStr (js "c")])
      (VObj {[js "separator" := VStr (js "; ")]}).
Proof.
  apply earlier_revision_agrees.
  intros name v Hname Hget.
  repeat (apply elem_of_cons in Hname as [-> | Hname];
          [vm_compute in Hget; injection Hget as <-; reflexivity |]).
  by apply elem_of_nil in Hname.
Defined.

Lemma humanJoin_shape_witness :
  humanJoin optionDefaults_initial
    (VArr ([VStr (js "a"); VStr (js "b")] ++ [VStr (js "c")]))
    (VObj {[js "noConjunction" := VBool true]})
  = Returns (js "a, b, c").
Proof.
  apply (humanJoin_shape optionDefaults_initial
           (VObj {[js "noConjunction" := VBool true]})
           {| separator := js ", "; conjunction := VBool false;
              quoteWith := VBool false; mirrorQuote := true |}
           [VStr (js "a"); VStr (js "b")] (VStr (js "c"))
           [js "a"; js "b"] (js "c"));
    [ vm_compute; reflexivity | discriminate | vm_compute; reflexivity
    | vm_compute; reflexivity ].
Defined.

Lemma earlier_mirrorCharacter_agrees_witness :
  Earlier.mirrorCharacter (VStr (js "<five"))
  = mirrorCharacter (VStr (js "<five")).
Proof.
  destruct earlier_mirrorCharacter_agrees as [H _].
  apply H. intros u Hu. vm_compute in Hu. injection Hu as <-.
  split; discriminate.
Defined.

Lemma humanJoin_array_throws_iff_witness :
  humanJoin optionDefaults_initial
    (VArr [VStr (js "a"); VSymbol (js "b")]) VUndefined
  = Throws TypeError.
Proof.
  apply (humanJoin_array_throws_iff optionDefaults_initial VUndefined
           [VStr (js "a"); VSymbol (js "b")]).
  split; [discriminate |].
  right; right; right. exists (VSymbol (js "b")).
  split; [right; left | reflexivity].
Defined.
